(** * CDC replication of the [orders] table: the Kafka consumer and the Flink job

    A shallow embedding of

    - [src/scripts/kafka-consumer.py]: [process_message] and the consumption
      loop of [main] (module [Consumer]);
    - [src/flink-job/flink-init.py]: the [INSERT INTO orders_flink_sink SELECT]
      statement submitted by [submit_flink_sql_job] (module [Flink]);

    followed by the properties of the change-application core. *)

From stdpp Require Import base strings list gmap.

Set Warnings "-register-all".
Local Open Scope string_scope.
Local Open Scope Z_scope.
Local Open Scope list_scope.

(** ** Python values and exceptions *)

Module Py.

(** What [json.loads] hands to the consumer. Numbers are integers (the wire
    shape has no other); a [dict] is kept as its list of items, looked up by
    key, first binding first. *)
Inductive pyval : Type :=
| PNone
| PBool (b : bool)
| PInt (z : Z)
| PStr (s : string)
| PList (items : list pyval)
| PDict (items : list (string * pyval)).

Inductive exc : Type :=
| AttributeError            (* [x.get] on a value that is not a dict *)
| KeyError (key : string)   (* [d[key]] on a dict without [key] *)
| TypeError                 (* [x[key]] on a value that is not a dict *)
| ValueError                (* raised by the value deserializer: the
                               [UnicodeDecodeError] of [decode] and the
                               [JSONDecodeError] of [json.loads] are both
                               [ValueError]s *)
| DatabaseError (what : string). (* raised by psycopg2 *)

(** An expression either raises or yields a value. *)
Definition py (A : Type) : Type := exc + A.

Definition ret {A} (a : A) : py A := inr a.
Definition raise {A} (e : exc) : py A := inl e.
Definition bind {A B} (m : py A) (f : A -> py B) : py B :=
  match m with
  | inl e => inl e
  | inr a => f a
  end.

(** Truth value of an object, as tested by [if x:] and [if not x:]. *)
Definition truthy (v : pyval) : bool :=
  match v with
  | PNone => false
  | PBool b => b
  | PInt z => negb (z =? 0)
  | PStr s => negb (String.eqb s "")
  | PList l => match l with [] => false | _ => true end
  | PDict d => match d with [] => false | _ => true end
  end.

Fixpoint assoc (k : string) (d : list (string * pyval)) : option pyval :=
  match d with
  | [] => None
  | (k', v) :: d' => if String.eqb k k' then Some v else assoc k d'
  end.

(** [x.get(k)]: [None] when the key is missing; only a dict has [get]. *)
Definition get (x : pyval) (k : string) : py pyval :=
  match x with
  | PDict d => ret (default PNone (assoc k d))
  | _ => raise AttributeError
  end.

(** [x[k]] for a string [k]. *)
Definition subscript (x : pyval) (k : string) : py pyval :=
  match x with
  | PDict d => match assoc k d with
               | Some v => ret v
               | None => raise (KeyError k)
               end
  | _ => raise TypeError
  end.

(** [x == s] for a string literal [s]. *)
Definition eq_str (x : pyval) (s : string) : bool :=
  match x with
  | PStr t => String.eqb t s
  | _ => false
  end.

End Py.

Export Py.

Declare Scope py_scope.
Delimit Scope py_scope with py.
Notation "'let*' x ':=' m 'in' f" := (bind m (fun x => f))
  (at level 10, x name, m at level 100, f at level 200) : py_scope.

(** ** kafka-consumer.py *)

Module Consumer.

(** The three statements [process_message] passes to [cursor.execute], each
    with its parameter tuple in the order the source builds it. *)
Inductive stmt : Type :=
| InsertOnConflict (order_id user_id name : pyval)
    (* INSERT INTO orders (order_id, user_id, name) VALUES (%s, %s, %s)
       ON CONFLICT (order_id) DO UPDATE
       SET user_id = EXCLUDED.user_id, name = EXCLUDED.name *)
| UpdateWhere (user_id name order_id : pyval)
    (* UPDATE orders SET user_id = %s, name = %s WHERE order_id = %s *)
| DeleteWhere (order_id : pyval).
    (* DELETE FROM orders WHERE order_id = %s *)

(** The parameter bound to [order_id]. *)
Definition stmt_key (s : stmt) : pyval :=
  match s with
  | InsertOnConflict k _ _ => k
  | UpdateWhere _ _ k => k
  | DeleteWhere k => k
  end.

(** A cursor is whatever has an [execute] method. It acts on the state [S]
    behind it and may raise; [main] sets [conn.autocommit = True], so a
    statement that raises leaves nothing behind. *)
Record cursor (S : Type) : Type := Cursor {
  execute : stmt -> S -> py S
}.
Arguments Cursor {S} _.
Arguments execute {S} _ _ _.

(** A record taken from the topic, after the value deserializer. *)
Record message : Type := Message {
  offset : nat;
  value : pyval
}.

Section ProcessMessage.
Context {S : Type}.
Local Open Scope py_scope.

(** [process_message(message, cursor)]. The result is the state behind the
    cursor when the call returns, or the exception it raises. *)
Definition process_message (message : message) (cursor : cursor S) (st : S) : py S :=
  let value := value message in
  if negb (truthy value) then ret st
  else
    let payload := value in
    let* op := get payload "op" in
    if eq_str op "c" || eq_str op "r" then
      let* after := get payload "after" in
      if truthy after then
        let* order_id := subscript after "order_id" in
        let* user_id := subscript after "user_id" in
        let* name := subscript after "name" in
        execute cursor (InsertOnConflict order_id user_id name) st
      else ret st
    else if eq_str op "u" then
      let* after := get payload "after" in
      if truthy after then
        let* user_id := subscript after "user_id" in
        let* name := subscript after "name" in
        let* order_id := subscript after "order_id" in
        execute cursor (UpdateWhere user_id name order_id) st
      else ret st
    else if eq_str op "d" then
      let* before := get payload "before" in
      if truthy before then
        let* order_id := subscript before "order_id" in
        execute cursor (DeleteWhere order_id) st
      else ret st
    else ret st.

(** The state once the call is over, whether it returned or raised. *)
Definition state_after (message : message) (cursor : cursor S) (st : S) : S :=
  match process_message message cursor st with
  | inl _ => st
  | inr st' => st'
  end.
End ProcessMessage.

(** A cursor that only writes down what it is asked to execute. *)
Definition recorder : cursor (list stmt) :=
  Cursor (fun s seen => ret (seen ++ [s])).

(** The statements a message makes [process_message] issue. *)
Definition issued (m : message) : list stmt := state_after m recorder [].

(** *** The destination table *)

(** A row of [orders] without its key. The columns are those named by the
    INSERT statement. *)
Record row : Type := Row {
  user_id : pyval;
  name : pyval
}.

(** [orders], keyed by [order_id], the conflict target of the INSERT. *)
Abbreviation table := (gmap Z row).

(** The columns of a stored row with their values. *)
Definition row_fields (k : Z) (r : row) : list (string * pyval) :=
  [("order_id", PInt k); ("user_id", user_id r); ("name", name r)].

(** The table's definition is not part of these sources. What the server
    makes of a bound parameter is therefore left open:
    - [key_of v] is the [order_id] the server reads from parameter [v], if it
      reads one ([None] for NULL: it equals no key and cannot be stored in
      the key column);
    - [refuses s t] is the error, if any, with which the server or the
      connection answers statement [s] on table [t]. *)
Record server : Type := Server {
  key_of : pyval -> option Z;
  refuses : stmt -> table -> option exc
}.

Definition write (srv : server) (s : stmt) (t : table) : py table :=
  match s with
  | InsertOnConflict k u n =>
      match key_of srv k with
      | Some z => ret (<[z := Row u n]> t)
      | None => raise (DatabaseError "null value in column order_id")
      end
  | UpdateWhere u n k =>
      match key_of srv k with
      | Some z => ret (alter (fun _ => Row u n) z t)
      | None => ret t
      end
  | DeleteWhere k =>
      match key_of srv k with
      | Some z => ret (delete z t)
      | None => ret t
      end
  end.

(** The cursor [conn.cursor()] returns on the destination connection. *)
Definition orders_cursor (srv : server) : cursor table :=
  Cursor (fun s t =>
    match refuses srv s t with
    | Some e => raise e
    | None => write srv s t
    end).

(** A server that reads integer keys and refuses nothing. *)
Definition int_key (v : pyval) : option Z :=
  match v with
  | PInt z => Some z
  | _ => None
  end.

Definition plain : server := Server int_key (fun _ _ => None).

(** Messages applied one after the other over one server, each through
    [process_message], an exception leaving the table as it was. *)
Definition apply_all (srv : server) (ms : list message) (t : table) : table :=
  foldl (fun t m => state_after m (orders_cursor srv) t) t ms.

(** *** The consumption loop of [main] *)

(** The value of a record as it sits in the topic. *)
Inductive wire : Type :=
| NoValue             (* no value, or no bytes: [x] is falsy *)
| Json (v : pyval)    (* bytes that decode and parse to [v] *)
| Malformed.          (* bytes that are not UTF-8, on which [decode] raises,
                         or not JSON, on which [json.loads] raises *)

(** [lambda x: json.loads(x.decode('utf-8')) if x else None] *)
Definition value_deserializer (x : wire) : py pyval :=
  match x with
  | NoValue => ret PNone
  | Json v => ret v
  | Malformed => raise ValueError
  end.

(** One turn of the loop: the record fetched and what the surroundings do
    while it is handled. The consumer is created with
    [enable_auto_commit=True]: it commits its position by itself, when its
    timer is due at a fetch and when it is closed; the loop has no commit
    call of its own. *)
Record turn : Type := Turn {
  fetched : wire;
  commit_due : bool;              (* the auto-commit timer is due at this fetch *)
  new_cursor : py (cursor table); (* [conn.cursor()] *)
  rollback : option exc           (* what [conn.rollback()] raises, if it raises *)
}.

Record run : Type := Run {
  orders : table;         (* the destination table *)
  printed : list exc;     (* the [e] of each "Error processing message: {e}" *)
  position : nat;         (* records handed to the loop so far *)
  committed : nat         (* position last committed by the consumer *)
}.

Definition auto_commit (r : run) : run :=
  Run (orders r) (printed r) (position r) (position r).

(** The body of [for message in consumer:] for one record. [Some e] is an
    exception that leaves the loop: the deserializer runs inside the
    iterator, outside the inner [try], and [conn.rollback()] runs inside the
    handler. [cursor.close()] only releases the cursor. *)
Definition iteration (tn : turn) (r : run) : option exc * run :=
  let r := if commit_due tn then auto_commit r else r in
  match value_deserializer (fetched tn) with
  | inl e => (Some e, r)
  | inr v =>
      let message := Message (position r) v in
      let r := Run (orders r) (printed r) (Datatypes.S (position r)) (committed r) in
      match bind (new_cursor tn) (fun cursor => process_message message cursor (orders r)) with
      | inr t' => (None, Run t' (printed r) (position r) (committed r))
      | inl e =>
          let r := Run (orders r) (printed r ++ [e]) (position r) (committed r) in
          (rollback tn, r)
      end
  end.

Inductive ending : Type :=
| Exhausted               (* every record given was handled; the loop waits *)
| Uncaught (e : exc).     (* an exception left the loop *)

Fixpoint consume (turns : list turn) (r : run) : ending * run :=
  match turns with
  | [] => (Exhausted, r)
  | tn :: rest =>
      match iteration tn r with
      | (Some e, r') => (Uncaught e, r')
      | (None, r') => consume rest r'
      end
  end.

(** The loop of [main] from a fresh consumer, with its [finally] clause:
    [consumer.close()] commits the position when the loop is left. *)
Definition main (turns : list turn) (t : table) : ending * run :=
  match consume turns (Run t [] 0%nat 0%nat) with
  | (Exhausted, r) => (Exhausted, r)
  | (Uncaught e, r) => (Uncaught e, auto_commit r)
  end.

End Consumer.

(** ** flink-init.py *)

Module Flink.

(** [ROW<order_id INT, user_id INT, name STRING>]; [None] is NULL. *)
Record order_row : Type := ROW {
  order_id : option Z;
  user_id : option Z;
  name : option string
}.

(** A row of the source table [kafka_orders]. *)
Record kafka_orders : Type := KafkaOrders {
  before : option order_row;
  after : option order_row;
  op : option string;
  ts_ms : option Z
}.

(** A row of [orders_flink_sink]: [order_id INT, user_id INT]. *)
Record orders_flink_sink : Type := SinkRow {
  sink_order_id : option Z;
  sink_user_id : option Z
}.

Definition COALESCE {A} (a b : option A) : option A :=
  match a with
  | Some _ => a
  | None => b
  end.

(** [`r`.f]: NULL when the row [r] is NULL. *)
Definition field {A} (r : option order_row) (f : order_row -> option A) : option A :=
  match r with
  | Some x => f x
  | None => None
  end.

(** [`op` IN (...)]: not true for a NULL [op]. *)
Definition op_in (o : option string) (l : list string) : bool :=
  match o with
  | Some s => existsb (String.eqb s) l
  | None => false
  end.

(** [SELECT COALESCE(`after`.order_id, `before`.order_id) as order_id,
            COALESCE(`after`.user_id, `before`.user_id) as user_id
     FROM kafka_orders WHERE `op` IN ('c', 'r', 'u')], row by row. *)
Definition insert_select (e : kafka_orders) : option orders_flink_sink :=
  if op_in (op e) ["c"; "r"; "u"] then
    Some (SinkRow (COALESCE (field (after e) order_id) (field (before e) order_id))
                  (COALESCE (field (after e) user_id) (field (before e) user_id)))
  else None.

(** [COALESCE(`after`.order_id, `before`.order_id)] *)
Definition coalesce_key (e : kafka_orders) : option Z :=
  COALESCE (field (after e) order_id) (field (before e) order_id).

(** The columns of a sink row with their values. *)
Definition sink_fields (r : orders_flink_sink) : list (string * option Z) :=
  [("order_id", sink_order_id r); ("user_id", sink_user_id r)].

(** [orders_flink]: [user_id] by [order_id]. The sink declares
    [PRIMARY KEY (order_id)], so a row written replaces the row of its key;
    a row whose key is NULL is refused by the primary key column and nothing
    is written. *)
Definition sink_write (r : orders_flink_sink) (t : gmap Z (option Z)) : gmap Z (option Z) :=
  match sink_order_id r with
  | Some k => <[k := sink_user_id r]> t
  | None => t
  end.

(** The table after the job has met one event. *)
Definition job (e : kafka_orders) (t : gmap Z (option Z)) : gmap Z (option Z) :=
  match insert_select e with
  | Some r => sink_write r t
  | None => t
  end.

(** The job fails on an event whose selected row has a NULL key. *)
Definition job_fails (e : kafka_orders) : bool :=
  match insert_select e with
  | Some r => match sink_order_id r with
              | Some _ => false
              | None => true
              end
  | None => false
  end.

(** The table after the job has met a stream of events: it handles them in
    order and stops at the first one on which it fails. *)
Fixpoint job_all (es : list kafka_orders) (t : gmap Z (option Z)) : gmap Z (option Z) :=
  match es with
  | [] => t
  | e :: es' => if job_fails e then t else job_all es' (job e t)
  end.

(** The JSON value of an event, as the consumer receives it. *)
Definition json_int (o : option Z) : pyval :=
  match o with
  | Some z => PInt z
  | None => PNone
  end.

Definition json_str (o : option string) : pyval :=
  match o with
  | Some s => PStr s
  | None => PNone
  end.

Definition json_row (r : option order_row) : pyval :=
  match r with
  | Some x => PDict [("order_id", json_int (order_id x));
                     ("user_id", json_int (user_id x));
                     ("name", json_str (name x))]
  | None => PNone
  end.

Definition json (e : kafka_orders) : pyval :=
  PDict [("before", json_row (before e)); ("after", json_row (after e));
         ("op", json_str (op e)); ("ts_ms", json_int (ts_ms e))].

End Flink.

(** ** Start-up: waiting and connecting *)

Module Startup.

(** What a start-up routine leaves behind: the lines it printed and the
    seconds it spent in [time.sleep]. *)
Record console (L : Type) : Type := Console {
  lines : list L;
  slept : nat
}.
Arguments Console {L} _ _.
Arguments lines {L} _.
Arguments slept {L} _.

Definition print {L} (l : L) (c : console L) : console L :=
  Console (lines c ++ [l]) (slept c).

Definition sleep {L} (seconds : nat) (c : console L) : console L :=
  Console (lines c) (slept c + seconds).

(** *** kafka-consumer.py *)

Section Connecting.
Context {E Conn Cons : Type}.

Inductive line : Type :=
| WaitingForServices      (* "Waiting for services to be ready..." *)
| Connected (service : string)
    (* "Connected to PostgreSQL destination database",
       "Connected to Kafka and subscribed to topic: {KAFKA_TOPIC}" *)
| FailedToConnect (service : string) (attempt max_retries : nat) (e : E)
    (* "Failed to connect to {service} (attempt {retry_count}/{max_retries}): {e}" *)
| StartingToConsume.      (* "Starting to consume messages..." *)

(** [wait_for_services()] *)
Definition wait_for_services (c : console line) : console line :=
  sleep 20 (print WaitingForServices c).

(** The [while retry_count < max_retries:] loop that [get_db_connection] and
    [main] both have, entered with [retry_count]. [connect n] is the outcome
    of the call made when [retry_count] is [n]: each turn of the loop makes
    one call and either leaves the loop or counts one more retry. [None]
    when the loop ends by its condition. [fuel] bounds the turns. *)
Fixpoint connect_loop {A : Type} (service : string) (connect : nat → E + A)
    (max_retries fuel retry_count : nat) (c : console line)
    : option A * console line :=
  match fuel with
  | O => (None, c)
  | Datatypes.S fuel' =>
      if (retry_count <? max_retries)%nat then
        match connect retry_count with
        | inr conn => (Some conn, print (Connected service) c)
        | inl e =>
            let retry_count := Datatypes.S retry_count in
            let c := print (FailedToConnect service retry_count max_retries e) c in
            let c := sleep 5 c in
            connect_loop service connect max_retries fuel' retry_count c
        end
      else (None, c)
  end.

(** [get_db_connection()]: the connection, or the message of the exception
    raised after the loop. *)
Definition get_db_connection (connect : nat → E + Conn) (c : console line)
    : (string + Conn) * console line :=
  let max_retries := 10%nat in
  let retry_count := 0%nat in
  match connect_loop "PostgreSQL" connect max_retries max_retries retry_count c with
  | (Some conn, c) => (inr conn, c)
  | (None, c) => (inl "Could not connect to PostgreSQL after multiple attempts", c)
  end.

(** [main()] up to the consumption loop: both connections, or the message of
    the exception that ends the program. *)
Definition main_startup (connect : nat → E + Conn) (subscribe : nat → E + Cons)
    : (string + Conn * Cons) * console line :=
  let c := wait_for_services (Console [] 0%nat) in
  match get_db_connection connect c with
  | (inl msg, c) => (inl msg, c)
  | (inr conn, c) =>
      let max_retries := 10%nat in
      let retry_count := 0%nat in
      match connect_loop "Kafka" subscribe max_retries max_retries retry_count c with
      | (Some consumer, c) => (inr (conn, consumer), print StartingToConsume c)
      | (None, c) => (inl "Could not connect to Kafka after multiple attempts", c)
      end
  end.

End Connecting.

(** *** flink-init.py *)

Section WaitingForFlink.
Context {E : Type}.

Inductive flink_line : Type :=
| WaitingForFlinkServices (* "Waiting for services to be ready..." *)
| FlinkReady              (* "Flink JobManager is ready" *)
| ErrorConnecting (e : E) (* "  Error connecting to Flink: ..." *)
| WaitingForJobManager (attempt max_retries : nat)
    (* "Waiting for Flink JobManager (attempt {retry_count}/{max_retries})..." *)
| NotResponding.
    (* "WARNING: Flink JobManager did not respond after max retries" *)

(** The loop of [wait_for_services()]. [overview n] is the outcome of the
    [requests.get] made when [retry_count] is [n]: a status code or an
    exception. The result is [retry_count] when the loop is over. *)
Fixpoint overview_loop (overview : nat → E + Z)
    (max_retries fuel retry_count : nat) (c : console flink_line)
    : nat * console flink_line :=
  match fuel with
  | O => (retry_count, c)
  | Datatypes.S fuel' =>
      if (retry_count <? max_retries)%nat then
        let go_on (c : console flink_line) :=
          let retry_count := Datatypes.S retry_count in
          let c := print (WaitingForJobManager retry_count max_retries) c in
          let c := sleep 5 c in
          overview_loop overview max_retries fuel' retry_count c in
        match overview retry_count with
        | inr status_code =>
            if status_code =? 200 then (retry_count, print FlinkReady c)
            else go_on c
        | inl e => go_on (print (ErrorConnecting e) c)
        end
      else (retry_count, c)
  end.

(** [wait_for_services()] of flink-init.py. *)
Definition flink_wait_for_services (overview : nat → E + Z)
    (c : console flink_line) : console flink_line :=
  let c := sleep 30 (print WaitingForFlinkServices c) in
  let max_retries := 30%nat in
  let retry_count := 0%nat in
  let '(retry_count, c) := overview_loop overview max_retries max_retries retry_count c in
  let c := if (max_retries <=? retry_count)%nat then print NotResponding c else c in
  sleep 10 c.

End WaitingForFlink.

End Startup.

(** ** What a message makes [process_message] do *)

Module Plan.
Import Consumer.

(** [process_message] evaluates its parameters before it calls the cursor,
    and calls it at most once, last. *)
Inductive plan : Type :=
| Raises (e : exc)
| Nothing
| Executes (s : stmt).

Definition plan_of (m : message) : plan :=
  match process_message m recorder [] with
  | inl e => Raises e
  | inr [] => Nothing
  | inr (s :: _) => Executes s
  end.

Definition follow {S} (p : plan) (c : cursor S) (st : S) : py S :=
  match p with
  | Raises e => raise e
  | Nothing => ret st
  | Executes s => execute c s st
  end.



(** The key the consumer takes from a typed event: from [before] for a
    Delete, from [after] otherwise. *)
Definition taken_key (e : Flink.kafka_orders) : option Z :=
  if Flink.op_in (Flink.op e) ["d"]
  then Flink.field (Flink.before e) Flink.order_id
  else Flink.field (Flink.after e) Flink.order_id.

(** [p.f] as a nullable field: [None] unless [p] is an object that binds
    [f]. *)
Definition member (p : pyval) (f : string) : pyval :=
  match p with
  | PDict a => default PNone (assoc f a)
  | _ => PNone
  end.

(** The key [process_message] takes from a payload: [before['order_id']] in
    the branch of ['d'], [after['order_id']] in the other branches. *)
Definition event_key (payload : pyval) : pyval :=
  if eq_str (member payload "op") "d"
  then member (member payload "before") "order_id"
  else member (member payload "after") "order_id".

(** The entity key of an event, as the Flink SELECT computes it:
    [COALESCE(`after`.order_id, `before`.order_id)]. *)
Definition entity_key (payload : pyval) : pyval :=
  match member (member payload "after") "order_id" with
  | PNone => member (member payload "before") "order_id"
  | k => k
  end.

(** What handling messages does to the row of one key: nothing, set it,
    remove it, or overwrite it if it is there. *)
Inductive key_action : Type :=
| Keep
| Put (r : row)
| Drop
| Change (r : row).

Definition act (a : key_action) (o : option row) : option row :=
  match a with
  | Keep => o
  | Put r => Some r
  | Drop => None
  | Change r => (λ _, r) <$> o
  end.

(** [a2] after [a1]. *)
Definition after_action (a2 a1 : key_action) : key_action :=
  match a2 with
  | Keep => a1
  | Put r => Put r
  | Drop => Drop
  | Change r => match a1 with
                | Keep => Change r
                | Put _ => Put r
                | Drop => Drop
                | Change _ => Change r
                end
  end.

(** The action of a statement, and of a message through its plan, on the
    row of key [k]. *)
Definition stmt_action (srv : server) (s : stmt) (k : Z) : key_action :=
  match key_of srv (stmt_key s) with
  | Some z =>
      if decide (z = k) then
        match s with
        | InsertOnConflict _ u n => Put (Row u n)
        | UpdateWhere u n _ => Change (Row u n)
        | DeleteWhere _ => Drop
        end
      else Keep
  | None => Keep
  end.

Definition action (srv : server) (m : message) (k : Z) : key_action :=
  match plan_of m with
  | Executes s => stmt_action srv s k
  | _ => Keep
  end.

Fixpoint batch_action (srv : server) (ms : list message) (k : Z) : key_action :=
  match ms with
  | [] => Keep
  | m :: ms' => after_action (batch_action srv ms' k) (action srv m k)
  end.



End Plan.

(** ** Events used as examples *)

Module Events.
Import Consumer.

(** A projection with the three fields of the wire shape. *)
Definition projection (k u : Z) (n : string) : pyval :=
  PDict [("order_id", PInt k); ("user_id", PInt u); ("name", PStr n)].

Definition create_1 : message :=
  Message 0 (PDict [("op", PStr "c"); ("after", projection 1 5 "A")]).
Definition update_1 : message :=
  Message 1 (PDict [("op", PStr "u"); ("after", projection 1 9 "B")]).
Definition delete_1 : message :=
  Message 2 (PDict [("op", PStr "d"); ("before", PDict [("order_id", PInt 1)])]).
Definition create_7 : message :=
  Message 0 (PDict [("op", PStr "c"); ("after", projection 7 3 "Ann")]).

(** The Create of the narrowing example and a Delete that still carries an
    [after] projection, as typed events. *)
Definition create_ann : Flink.kafka_orders :=
  Flink.KafkaOrders None (Some (Flink.ROW (Some 7) (Some 3) (Some "Ann")))
                    (Some "c") None.
Definition delete_with_after : Flink.kafka_orders :=
  Flink.KafkaOrders (Some (Flink.ROW (Some 1) (Some 5) (Some "A")))
                    (Some (Flink.ROW (Some 2) (Some 5) (Some "A")))
                    (Some "d") None.
Definition delete_ann : Flink.kafka_orders :=
  Flink.KafkaOrders (Some (Flink.ROW (Some 7) (Some 3) (Some "Ann"))) None
                    (Some "d") None.

Definition create_2 : message :=
  Message 1 (PDict [("op", PStr "c"); ("after", projection 2 6 "C")]).

(** An Update that sets [user_id] to NULL. *)
Definition update_to_null : Flink.kafka_orders :=
  Flink.KafkaOrders (Some (Flink.ROW (Some 7) (Some 3) (Some "Ann")))
                    (Some (Flink.ROW (Some 7) None (Some "Ann")))
                    (Some "u") None.




(** A server on which every statement fails with a transient error. *)
Definition deadlocked : server :=
  Server int_key (fun _ _ => Some (DatabaseError "deadlock detected")).

(** Turns on a connection that opens cursors and rolls back without fault. *)
Definition turn_of (srv : server) (due : bool) (m : message) : turn :=
  Turn (Json (value m)) due (ret (orders_cursor srv)) None.

(** A destination with rows for two keys. *)
Definition two_rows : table :=
  {[1 := Row (PInt 5) (PStr "A"); 2 := Row (PInt 6) (PStr "C")]}.

End Events.

(** ** Properties *)

Module PlanFacts.
Import Consumer Plan.

Lemma process_message_plan {S} (m : message) (c : cursor S) (st : S) :
  process_message m c st = follow (plan_of m) c st.
Proof.
  destruct m as [off v].
  unfold plan_of, process_message; simpl.
  destruct (truthy v); simpl; [|done].
  destruct (get v "op") as [e|op]; simpl; [done|].
  destruct (eq_str op "c" || eq_str op "r").
  { destruct (get v "after") as [e|a]; simpl; [done|].
    destruct (truthy a); [|done].
    destruct (subscript a "order_id"); simpl; [done|].
    destruct (subscript a "user_id"); simpl; [done|].
    destruct (subscript a "name"); simpl; done. }
  destruct (eq_str op "u").
  { destruct (get v "after") as [e|a]; simpl; [done|].
    destruct (truthy a); [|done].
    destruct (subscript a "user_id"); simpl; [done|].
    destruct (subscript a "name"); simpl; [done|].
    destruct (subscript a "order_id"); simpl; done. }
  destruct (eq_str op "d"); [|done].
  destruct (get v "before") as [e|b]; simpl; [done|].
  destruct (truthy b); [|done].
  destruct (subscript b "order_id"); simpl; done.
Qed.

End PlanFacts.


Module ConsumerFacts.
Import Consumer Plan PlanFacts Events.

Lemma get_ret_truthy v k x : get v k = ret x → x ≠ PNone → truthy v = true.
Proof.
  destruct v as [| | | | |d]; simpl; try discriminate.
  destruct d as [|kv d]; simpl; [|done].
  intros [= <-]. done.
Qed.

Lemma subscript_ret_truthy a k x : subscript a k = ret x → truthy a = true.
Proof.
  destruct a as [| | | | |d]; simpl; try discriminate.
  destruct d as [|kv d]; simpl; [discriminate|done].
Qed.

(** An Update whose [after] has the three fields issues the UPDATE with them. *)
Lemma update_runs {S} (m : message) (c : cursor S) st a ko u n :
  get (value m) "op" = ret (PStr "u") →
  get (value m) "after" = ret a →
  subscript a "order_id" = ret ko →
  subscript a "user_id" = ret u →
  subscript a "name" = ret n →
  process_message m c st = execute c (UpdateWhere u n ko) st.
Proof.
  intros Hop Ha Hk Hu Hn. unfold process_message.
  rewrite (get_ret_truthy _ _ _ Hop) by done. simpl.
  rewrite Hop; simpl. rewrite Ha; simpl.
  rewrite (subscript_ret_truthy _ _ _ Hk).
  rewrite Hu; simpl. rewrite Hn; simpl. rewrite Hk; simpl. done.
Qed.

(** The statements issued are those of the plan. *)
Lemma issued_plan (m : message) :
  issued m = match plan_of m with
             | Executes s => [s]
             | _ => []
             end.
Proof.
  unfold issued, state_after. rewrite process_message_plan.
  destruct (plan_of m); reflexivity.
Qed.

(** Over the destination, every statement acts as the same map update however
    often it is repeated. *)
Lemma write_twice (srv : server) (s : stmt) (t t' : table) :
  write srv s t = inr t' → write srv s t' = inr t'.
Proof.
  destruct s as [k u n|u n k|k]; simpl; destruct (key_of srv k) as [z|];
    try done; intros [= <-]; unfold ret; f_equal.
  - apply insert_insert_eq.
  - apply map_eq. intros i. destruct (decide (z = i)) as [->|Hne].
    + rewrite !lookup_alter_eq. by destruct (t !! i).
    + by rewrite !lookup_alter_ne.
  - apply map_eq. intros i. destruct (decide (z = i)) as [->|Hne].
    + by rewrite !lookup_delete_eq.
    + by rewrite !lookup_delete_ne.
Qed.

(** A statement touches the row of its key only. *)
Lemma write_frame (srv : server) (s : stmt) (t t' : table) (k' : Z) :
  write srv s t = inr t' →
  key_of srv (stmt_key s) ≠ Some k' →
  t' !! k' = t !! k'.
Proof.
  destruct s as [k u n|u n k|k]; simpl; destruct (key_of srv k) as [z|];
    try done; intros [= <-] Hne; try done.
  - apply lookup_insert_ne. congruence.
  - apply lookup_alter_ne. congruence.
  - apply lookup_delete_ne. congruence.
Qed.

(** *** Update of a key the destination does not hold *)

(** C1, as stated, fails: the Update [{op:u, after:{order_id:1, user_id:9,
    name:"B"}}] delivered to an empty destination returns without error and
    leaves the destination empty; no row for key 1 exists afterwards. *)
Lemma C1_update_of_absent_key_leaves_no_row :
  (∅ : table) !! 1 = None ∧
  process_message update_1 (orders_cursor plain) ∅ = inr ∅ ∧
  state_after update_1 (orders_cursor plain) ∅ !! 1 = None.
Proof. repeat split; reflexivity. Qed.

(** C1 (amended): an Update event whose [after] carries [order_id], [user_id]
    and [name] is applied as a plain [UPDATE ... WHERE order_id = k]. When the
    destination holds no row for [k] the destination is left as it is, a
    zero-row update that returns without error when the server accepts the
    statement; when it holds one, that row, and no other, is overwritten with
    the Update's [user_id] and [name]. *)
Theorem C1_update_is_plain_update
    (srv : server) (m : message) (a ko u n : pyval) (k : Z) (t : table) :
  get (value m) "op" = ret (PStr "u") →
  get (value m) "after" = ret a →
  subscript a "order_id" = ret ko →
  subscript a "user_id" = ret u →
  subscript a "name" = ret n →
  key_of srv ko = Some k →
  (t !! k = None → state_after m (orders_cursor srv) t = t) ∧
  (t !! k = None → refuses srv (UpdateWhere u n ko) t = None →
   process_message m (orders_cursor srv) t = inr t) ∧
  (is_Some (t !! k) → refuses srv (UpdateWhere u n ko) t = None →
   ∃ t', process_message m (orders_cursor srv) t = inr t' ∧
         t' !! k = Some (Row u n) ∧
         ∀ k', k' ≠ k → t' !! k' = t !! k').
Proof.
  intros Hop Ha Hk Hu Hn Hkey.
  assert (Hnone : t !! k = None → alter (λ _, Row u n) k t = t).
  { intros Hnone. apply map_eq. intros i. rewrite lookup_alter.
    case_decide; subst; by rewrite ?Hnone. }
  assert (Hrun := update_runs m (orders_cursor srv) t a ko u n Hop Ha Hk Hu Hn).
  simpl in Hrun. split; [|split].
  - intros Hnone'. unfold state_after. rewrite Hrun.
    destruct (refuses srv _ t); [done|].
    simpl. rewrite Hkey. simpl. auto.
  - intros Hnone' Hacc. rewrite Hrun, Hacc. simpl. rewrite Hkey. simpl.
    by rewrite Hnone.
  - intros [r Hr] Hacc. rewrite Hrun, Hacc. simpl. rewrite Hkey.
    eexists. split; [reflexivity|]. split.
    + rewrite lookup_alter. case_decide; [|done]. by rewrite Hr.
    + intros k' Hne. rewrite lookup_alter. by case_decide; subst.
Qed.

Lemma C1_update_is_plain_update_witness :
  state_after update_1 (orders_cursor plain) ∅ = ∅ ∧
  ∃ t', process_message update_1 (orders_cursor plain)
          {[1 := Row (PInt 5) (PStr "A")]} = inr t' ∧
        t' !! 1 = Some (Row (PInt 9) (PStr "B")) ∧
        ∀ k', k' ≠ 1 →
              t' !! k' = ({[1 := Row (PInt 5) (PStr "A")]} : table) !! k'.
Proof.
  split.
  - apply (C1_update_is_plain_update plain update_1 (projection 1 9 "B")
             (PInt 1) (PInt 9) (PStr "B") 1 ∅); reflexivity.
  - apply (C1_update_is_plain_update plain update_1 (projection 1 9 "B")
             (PInt 1) (PInt 9) (PStr "B") 1 {[1 := Row (PInt 5) (PStr "A")]});
      try reflexivity.
    exists (Row (PInt 5) (PStr "A")). reflexivity.
Defined.

(** *** Redelivery *)

(** C4: whatever the message (Create, Read, Update, Delete or anything
    else) and whatever the destination, handling the message twice in a row
    leaves the destination as handling it once does. A Delete whose key the
    destination does not hold returns without error and changes nothing, the
    first time and the second, on a server that accepts the statement. *)
Theorem C4_applying_twice_is_applying_once
    (srv : server) (m : message) (t : table) :
  state_after m (orders_cursor srv) (state_after m (orders_cursor srv) t)
  = state_after m (orders_cursor srv) t ∧
  ∀ (b ko : pyval) (k : Z),
    get (value m) "op" = ret (PStr "d") →
    get (value m) "before" = ret b →
    subscript b "order_id" = ret ko →
    key_of srv ko = Some k →
    refuses srv (DeleteWhere ko) t = None →
    t !! k = None →
    process_message m (orders_cursor srv) t = inr t ∧
    process_message m (orders_cursor srv)
      (state_after m (orders_cursor srv) t) = inr t.
Proof.
  split.
  - unfold state_after. rewrite !process_message_plan.
    destruct (plan_of m) as [e| |s]; simpl; try done.
    destruct (refuses srv s t) eqn:Hr; simpl.
    { by rewrite Hr. }
    destruct (write srv s t) as [e|t'] eqn:Hw; simpl.
    { by rewrite Hr, Hw. }
    destruct (refuses srv s t'); [done|].
    by rewrite (write_twice _ _ _ _ Hw).
  - intros b ko k Hop Hb Hk Hkey Hacc Hnone.
    assert (Hrun : process_message m (orders_cursor srv) t = inr t).
    { unfold process_message.
      rewrite (get_ret_truthy _ _ _ Hop) by done. simpl.
      rewrite Hop; simpl. rewrite Hb; simpl.
      rewrite (subscript_ret_truthy _ _ _ Hk). rewrite Hk; simpl.
      rewrite Hacc. simpl. rewrite Hkey. unfold ret. f_equal.
      by apply delete_id. }
    unfold state_after. by rewrite !Hrun.
Qed.

Lemma C4_applying_twice_is_applying_once_witness :
  process_message delete_1 (orders_cursor plain) ∅ = inr ∅ ∧
  process_message delete_1 (orders_cursor plain)
    (state_after delete_1 (orders_cursor plain) ∅) = inr ∅.
Proof.
  apply (proj2 (C4_applying_twice_is_applying_once plain delete_1 ∅)
           (PDict [("order_id", PInt 1)]) (PInt 1) 1); reflexivity.
Defined.

(** *** Rows of other keys *)

(** [process_message] issues at most one statement, and applying a message
    leaves every destination row unchanged whose key is not the key that
    statement bears. *)
Lemma rows_off_the_statement_key_unchanged
    (srv : server) (m : message) (t : table) :
  (length (issued m) ≤ 1)%nat ∧
  ∀ k' : Z,
    (∀ s, s ∈ issued m → key_of srv (stmt_key s) ≠ Some k') →
    state_after m (orders_cursor srv) t !! k' = t !! k'.
Proof.
  rewrite issued_plan. split.
  - destruct (plan_of m); simpl; lia.
  - intros k' Hkey. unfold state_after. rewrite process_message_plan.
    destruct (plan_of m) as [e| |s]; simpl; try done.
    destruct (refuses srv s t); [done|].
    destruct (write srv s t) as [e|t'] eqn:Hw; [done|].
    apply (write_frame srv s); [done|]. apply Hkey. apply list_elem_of_here.
Qed.

Lemma eq_str_true (x : pyval) (s : string) : eq_str x s = true → x = PStr s.
Proof.
  destruct x; simpl; try discriminate. by intros ->%String.eqb_eq.
Qed.

Lemma subscript_member (p : pyval) (f : string) (x : pyval) :
  subscript p f = ret x → member p f = x.
Proof.
  destruct p as [| | | | |a]; simpl; try discriminate.
  destruct (assoc f a); simpl; [|discriminate]. by intros [= ->].
Qed.

(** The statement a message issues bears the key taken from the event. *)
Lemma issued_bears_event_key (m : message) (s : stmt) :
  s ∈ issued m → stmt_key s = event_key (value m).
Proof.
  destruct m as [off v]. unfold issued, state_after, process_message, event_key.
  simpl. destruct (truthy v); simpl; [|by intros ?%elem_of_nil].
  destruct v as [| | | | |d]; simpl; try (by intros ?%elem_of_nil).
  set (op := default PNone (assoc "op" d)).
  destruct (eq_str op "c" || eq_str op "r") eqn:Hcr.
  { assert (eq_str op "d" = false) as ->.
    { apply orb_true_iff in Hcr as [->%eq_str_true| ->%eq_str_true]; done. }
    destruct (truthy _); [|by intros ?%elem_of_nil].
    destruct (subscript _ "order_id") as [e|k] eqn:Hk; simpl;
      [by intros ?%elem_of_nil|].
    destruct (subscript _ "user_id"); simpl; [by intros ?%elem_of_nil|].
    destruct (subscript _ "name"); simpl; [by intros ?%elem_of_nil|].
    intros ->%list_elem_of_singleton. simpl.
    symmetry. by apply subscript_member. }
  destruct (eq_str op "u") eqn:Hu.
  { assert (eq_str op "d" = false) as ->.
    { by apply eq_str_true in Hu as ->. }
    destruct (truthy _); [|by intros ?%elem_of_nil].
    destruct (subscript _ "user_id"); simpl; [by intros ?%elem_of_nil|].
    destruct (subscript _ "name"); simpl; [by intros ?%elem_of_nil|].
    destruct (subscript _ "order_id") as [e|k] eqn:Hk; simpl;
      [by intros ?%elem_of_nil|].
    intros ->%list_elem_of_singleton. simpl.
    symmetry. by apply subscript_member. }
  destruct (eq_str op "d") eqn:Hd; [|by intros ?%elem_of_nil].
  destruct (truthy _); [|by intros ?%elem_of_nil].
  destruct (subscript _ "order_id") as [e|k] eqn:Hk; simpl;
    [by intros ?%elem_of_nil|].
  intros ->%list_elem_of_singleton. simpl.
  symmetry. by apply subscript_member.
Qed.

(** C10, as stated, fails when the entity key is
    COALESCE(after.key, before.key): for a Delete that carries both
    projections, [before] with key 1 and [after] with key 2, the entity key is
    2 and the row of key 1, a different key, is removed. *)
Lemma C10_delete_changes_row_off_the_entity_key :
  entity_key (Flink.json delete_with_after) = PInt 2 ∧
  key_of plain (entity_key (Flink.json delete_with_after)) ≠ Some 1 ∧
  two_rows !! 1 = Some (Row (PInt 5) (PStr "A")) ∧
  state_after (Message 0 (Flink.json delete_with_after)) (orders_cursor plain)
    two_rows !! 1 = None.
Proof. split; [reflexivity|split; [discriminate|split; reflexivity]]. Qed.

(** C10 (amended): [process_message] issues at most one statement, and that
    statement bears the key the consumer takes from the event:
    [before['order_id']] for a Delete, [after['order_id']] for a Create, Read
    or Update. Applying the event leaves every destination row unchanged
    whose key is different from that key. The key taken is the entity key
    COALESCE(after.key, before.key) for a Create, Read or Update whose
    [after] has a key and for a Delete whose [after] has none. *)
Theorem C10_rows_off_the_taken_key_unchanged
    (srv : server) (m : message) (t : table) :
  (length (issued m) ≤ 1)%nat ∧
  (∀ s, s ∈ issued m → stmt_key s = event_key (value m)) ∧
  (∀ k' : Z,
     key_of srv (event_key (value m)) ≠ Some k' →
     state_after m (orders_cursor srv) t !! k' = t !! k') ∧
  (eq_str (member (value m) "op") "d" = false →
   member (member (value m) "after") "order_id" ≠ PNone →
   event_key (value m) = entity_key (value m)) ∧
  (eq_str (member (value m) "op") "d" = true →
   member (member (value m) "after") "order_id" = PNone →
   event_key (value m) = entity_key (value m)).
Proof.
  destruct (rows_off_the_statement_key_unchanged srv m t) as (Hone & Hframe).
  split; [done|]. split; [apply issued_bears_event_key|].
  split; [|split].
  - intros k' Hkey. apply Hframe. intros s Hs.
    by rewrite (issued_bears_event_key m s Hs).
  - intros Hop Hafter. unfold event_key, entity_key. rewrite Hop.
    by destruct (member (member (value m) "after") "order_id").
  - intros Hop Hafter. unfold event_key, entity_key. by rewrite Hop, Hafter.
Qed.

Lemma C10_rows_off_the_taken_key_unchanged_witness :
  state_after update_1 (orders_cursor plain) two_rows !! 2 = two_rows !! 2 ∧
  event_key (value update_1) = entity_key (value update_1) ∧
  event_key (value delete_1) = entity_key (value delete_1).
Proof.
  destruct (C10_rows_off_the_taken_key_unchanged plain update_1 two_rows)
    as (_ & _ & Hframe & Hother & _).
  destruct (C10_rows_off_the_taken_key_unchanged plain delete_1 two_rows)
    as (_ & _ & _ & _ & Hdelete).
  split; [|split].
  - apply Hframe. discriminate.
  - apply Hother; [reflexivity|discriminate].
  - apply Hdelete; reflexivity.
Defined.

(** *** Tombstones and unknown operations *)






(** *** Create, Update, Delete of one key *)

(** C5: from a destination without a row for [order_id = 1], the events
    [{op:c, after:{order_id:1, user_id:5, name:"A"}}],
    [{op:u, after:{order_id:1, user_id:9, name:"B"}}] and
    [{op:d, before:{order_id:1}}], applied in this order on a server that
    accepts them, create the row, overwrite it, and leave the destination
    without a row for [order_id = 1]. *)
Theorem C5_create_update_delete (srv : server) (t : table) :
  key_of srv (PInt 1) = Some 1 →
  (∀ s t', refuses srv s t' = None) →
  t !! 1 = None →
  apply_all srv [create_1] t !! 1 = Some (Row (PInt 5) (PStr "A")) ∧
  apply_all srv [create_1; update_1] t !! 1 = Some (Row (PInt 9) (PStr "B")) ∧
  apply_all srv [create_1; update_1; delete_1] t !! 1 = None.
Proof.
  intros Hkey Hacc Hnone.
  assert (Hrun : ∀ m s t0, plan_of m = Executes s →
            state_after m (orders_cursor srv) t0
            = match write srv s t0 with inr t' => t' | inl _ => t0 end).
  { intros m s t0 Hplan. unfold state_after.
    rewrite process_message_plan, Hplan. simpl. by rewrite Hacc. }
  unfold apply_all; simpl.
  rewrite (Hrun create_1 _ _ eq_refl). simpl. rewrite Hkey. simpl.
  rewrite (Hrun update_1 _ _ eq_refl). simpl. rewrite Hkey. simpl.
  rewrite (Hrun delete_1 _ _ eq_refl). simpl. rewrite Hkey. simpl.
  split; [|split].
  - apply lookup_insert_eq.
  - rewrite lookup_alter. case_decide; [|done]. by rewrite lookup_insert_eq.
  - apply lookup_delete_eq.
Qed.

Lemma C5_create_update_delete_witness :
  apply_all plain [create_1] ∅ !! 1 = Some (Row (PInt 5) (PStr "A")) ∧
  apply_all plain [create_1; update_1] ∅ !! 1 = Some (Row (PInt 9) (PStr "B")) ∧
  apply_all plain [create_1; update_1; delete_1] ∅ !! 1 = None.
Proof.
  apply (C5_create_update_delete plain ∅); [reflexivity| |reflexivity].
  intros s t'. reflexivity.
Defined.

End ConsumerFacts.

Module LoopFacts.
Import Consumer Plan PlanFacts Events ConsumerFacts.





(** Two ways out of the loop: a record that does not deserialize, and a
    rollback that raises after a failed statement. *)
Example malformed_record_leaves_the_loop :
  main [Turn Malformed false (ret (orders_cursor plain)) None;
        turn_of plain false create_1] ∅
  = (Uncaught ValueError, Run ∅ [] 0%nat 0%nat).
Proof. reflexivity. Qed.

Example failed_rollback_leaves_the_loop :
  main [Turn (Json (value create_1)) false (ret (orders_cursor deadlocked))
             (Some (DatabaseError "connection already closed"));
        turn_of plain false create_2] ∅
  = (Uncaught (DatabaseError "connection already closed"),
     Run ∅ [DatabaseError "deadlock detected"] 1%nat 1%nat).
Proof. reflexivity. Qed.

(** *** A statement that fails *)




(** *** Events without the projection they need *)

(** A payload with an [op] is a dict that is not empty. *)
Lemma process_dict {S} (off : nat) (d : list (string * pyval)) (opname : string)
    (c : cursor S) (st : S) :
  assoc "op" d = Some (PStr opname) →
  process_message (Message off (PDict d)) c st
  = if String.eqb opname "c" || String.eqb opname "r" then
      let after := default PNone (assoc "after" d) in
      if truthy after then
        bind (subscript after "order_id") (λ order_id,
        bind (subscript after "user_id") (λ user_id,
        bind (subscript after "name") (λ name,
        execute c (InsertOnConflict order_id user_id name) st)))
      else ret st
    else if String.eqb opname "u" then
      let after := default PNone (assoc "after" d) in
      if truthy after then
        bind (subscript after "user_id") (λ user_id,
        bind (subscript after "name") (λ name,
        bind (subscript after "order_id") (λ order_id,
        execute c (UpdateWhere user_id name order_id) st)))
      else ret st
    else if String.eqb opname "d" then
      let before := default PNone (assoc "before" d) in
      if truthy before then
        bind (subscript before "order_id") (λ order_id,
        execute c (DeleteWhere order_id) st)
      else ret st
    else ret st.
Proof.
  intros Hop. unfold process_message. simpl.
  destruct d as [|kv d']; [discriminate|]. simpl negb. cbv iota.
  unfold get. rewrite Hop. reflexivity.
Qed.





End LoopFacts.

Module FlinkFacts.
Import Flink Events.

Lemma op_in_cru (o : option string) :
  op_in o ["c"; "r"; "u"] = true ↔ o = Some "c" ∨ o = Some "r" ∨ o = Some "u".
Proof.
  destruct o as [s|]; simpl.
  - rewrite !orb_true_iff, !String.eqb_eq. split.
    + intros [->|[->|[->|?]]]; auto. done.
    + intros [[= ->]|[[= ->]|[= ->]]]; auto.
  - split; [done|]. intros [|[|]]; done.
Qed.

(** A row written by the sink never takes a key out of the table. *)
Lemma job_keeps_keys (e : kafka_orders) (t : gmap Z (option Z)) (k : Z) :
  is_Some (t !! k) → is_Some (job e t !! k).
Proof.
  intros Hk. unfold job. destruct (insert_select e) as [r|]; [|done].
  unfold sink_write. destruct (sink_order_id r) as [k'|]; [|done].
  destruct (decide (k' = k)) as [->|Hne].
  - rewrite lookup_insert_eq. by eexists.
  - by rewrite lookup_insert_ne.
Qed.

(** C9: the Flink job forwards to its sink exactly the events whose [op] is
    ['c'], ['r'] or ['u']. For a Delete it selects nothing and writes
    nothing, and no stream of events ever removes a key from [orders_flink]:
    a row deleted at the source stays in the Flink replica. *)
Theorem C9_flink_job_never_deletes :
  (∀ e : kafka_orders,
     is_Some (insert_select e) ↔
     op e = Some "c" ∨ op e = Some "r" ∨ op e = Some "u") ∧
  (∀ (e : kafka_orders) (t : gmap Z (option Z)),
     op e = Some "d" → insert_select e = None ∧ job e t = t) ∧
  (∀ (es : list kafka_orders) (t : gmap Z (option Z)) (k : Z),
     is_Some (t !! k) → is_Some (job_all es t !! k)).
Proof.
  split; [|split].
  - intros e. rewrite <- op_in_cru. unfold insert_select.
    destruct (op_in (op e) _); split; done.
  - intros e t Hop. unfold job, insert_select. by rewrite Hop.
  - intros es. induction es as [|e es IH]; intros t k Hk; [done|].
    simpl. destruct (job_fails e); [done|]. apply IH. by apply job_keeps_keys.
Qed.

Lemma C9_flink_job_never_deletes_witness :
  (insert_select delete_ann = None ∧
   job delete_ann {[7 := Some 3]} = {[7 := Some 3]}) ∧
  is_Some (job_all [create_ann; delete_ann] {[7 := Some 3]} !! 7).
Proof.
  destruct C9_flink_job_never_deletes as (_ & Hdel & Hkeep).
  split.
  - apply Hdel. reflexivity.
  - apply Hkeep. exists (Some 3). reflexivity.
Defined.

End FlinkFacts.

Module NarrowingFacts.
Import Consumer Plan PlanFacts Events ConsumerFacts LoopFacts FlinkFacts.

(** What the consumer does with the JSON value of a typed event. *)
Lemma process_json {S} (off : nat) (e : Flink.kafka_orders) (o : string)
    (c : cursor S) (st : S) :
  Flink.op e = Some o →
  process_message (Message off (Flink.json e)) c st
  = if String.eqb o "c" || String.eqb o "r" then
      match Flink.after e with
      | Some a => execute c (InsertOnConflict (Flink.json_int (Flink.order_id a))
                                              (Flink.json_int (Flink.user_id a))
                                              (Flink.json_str (Flink.name a))) st
      | None => ret st
      end
    else if String.eqb o "u" then
      match Flink.after e with
      | Some a => execute c (UpdateWhere (Flink.json_int (Flink.user_id a))
                                         (Flink.json_str (Flink.name a))
                                         (Flink.json_int (Flink.order_id a))) st
      | None => ret st
      end
    else if String.eqb o "d" then
      match Flink.before e with
      | Some b => execute c (DeleteWhere (Flink.json_int (Flink.order_id b))) st
      | None => ret st
      end
    else ret st.
Proof.
  intros Ho. unfold Flink.json.
  rewrite (process_dict off _ o) by (simpl; by rewrite Ho).
  destruct e as [b a o' ts]; simpl in *.
  destruct (String.eqb o "c" || String.eqb o "r"); [by destruct a|].
  destruct (String.eqb o "u"); [by destruct a|].
  destruct (String.eqb o "d"); [by destruct b|done].
Qed.

(** *** Which fields reach the destination *)

(** C3, as stated, fails for the consumer: the Create
    [{order_id:7, user_id:3, name:"Ann"}] leaves a row of [orders] that
    carries [name] as well. *)
Lemma C3_consumer_row_carries_name :
  row_fields 7 <$> (state_after create_7 (orders_cursor plain) ∅ !! 7)
  = Some [("order_id", PInt 7); ("user_id", PInt 3); ("name", PStr "Ann")] ∧
  row_fields 7 <$> (state_after create_7 (orders_cursor plain) ∅ !! 7)
  ≠ Some [("order_id", PInt 7); ("user_id", PInt 3)].
Proof. split; [reflexivity|discriminate]. Qed.

(** C3 (amended): for a Create event whose [after] carries [order_id],
    [user_id] and [name], the consumer writes a row of [orders] with all
    three fields, [name] included; the narrowing to [order_id] and [user_id]
    is done by the Flink job, whose row for [orders_flink_sink] carries these
    two fields only. *)
Theorem C3_consumer_keeps_name_flink_drops_it
    (srv : server) (e : Flink.kafka_orders) (off : nat) (k u : Z) (n : string)
    (t : table) :
  Flink.op e = Some "c" →
  Flink.after e = Some (Flink.ROW (Some k) (Some u) (Some n)) →
  key_of srv (PInt k) = Some k →
  refuses srv (InsertOnConflict (PInt k) (PInt u) (PStr n)) t = None →
  row_fields k <$> (state_after (Message off (Flink.json e)) (orders_cursor srv) t !! k)
  = Some [("order_id", PInt k); ("user_id", PInt u); ("name", PStr n)] ∧
  Flink.sink_fields <$> Flink.insert_select e
  = Some [("order_id", Some k); ("user_id", Some u)].
Proof.
  intros Hop Ha Hkey Hacc. split.
  - unfold state_after. rewrite (process_json off e "c") by done.
    simpl. rewrite Ha. simpl. rewrite Hacc. simpl. rewrite Hkey. simpl.
    by rewrite lookup_insert_eq.
  - unfold Flink.insert_select. rewrite Hop, Ha. reflexivity.
Qed.

Lemma C3_consumer_keeps_name_flink_drops_it_witness :
  row_fields 7 <$> (state_after (Message 0 (Flink.json create_ann))
                      (orders_cursor plain) ∅ !! 7)
  = Some [("order_id", PInt 7); ("user_id", PInt 3); ("name", PStr "Ann")] ∧
  Flink.sink_fields <$> Flink.insert_select create_ann
  = Some [("order_id", Some 7); ("user_id", Some 3)].
Proof.
  apply (C3_consumer_keeps_name_flink_drops_it plain create_ann 0%nat 7 3 "Ann" ∅);
    reflexivity.
Defined.

(** *** Where the key comes from *)

(** C6, as stated, fails for the consumer: for a Delete that carries both
    projections, [before] with key 1 and [after] with key 2, the DELETE is
    issued for key 1, while COALESCE(after.key, before.key) is 2. *)
Lemma C6_delete_takes_key_from_before :
  issued (Message 0 (Flink.json delete_with_after)) = [DeleteWhere (PInt 1)] ∧
  Flink.json_int (Flink.coalesce_key delete_with_after) = PInt 2 ∧
  stmt_key (DeleteWhere (PInt 1))
  ≠ Flink.json_int (Flink.coalesce_key delete_with_after).
Proof. split; [reflexivity|split; [reflexivity|discriminate]]. Qed.

(** C6 (amended): the Flink job keys its row by
    COALESCE(after.order_id, before.order_id). The consumer takes the key of
    its statement from [before] for a Delete and from [after] for Create,
    Read and Update, without falling back on the other projection: with no
    [after], Create, Read and Update issue nothing. The key so taken equals
    COALESCE(after.order_id, before.order_id) for a Delete whose [after]
    gives no key, and for the other operations whenever [after] gives one. *)
Theorem C6_key_of_the_mutation (e : Flink.kafka_orders) (off : nat) :
  (∀ r, Flink.insert_select e = Some r →
        Flink.sink_order_id r = Flink.coalesce_key e) ∧
  (∀ s, s ∈ issued (Message off (Flink.json e)) →
        stmt_key s = Flink.json_int (taken_key e)) ∧
  (Flink.op e = Some "d" →
   Flink.field (Flink.after e) Flink.order_id = None →
   taken_key e = Flink.coalesce_key e) ∧
  (Flink.op e ≠ Some "d" →
   is_Some (Flink.field (Flink.after e) Flink.order_id) →
   taken_key e = Flink.coalesce_key e) ∧
  (Flink.op e ≠ Some "d" →
   Flink.after e = None →
   issued (Message off (Flink.json e)) = []).
Proof.
  split; [|split; [|split; [|split]]].
  - intros r. unfold Flink.insert_select.
    destruct (Flink.op_in _ _); [|done]. by intros [= <-].
  - intros s. unfold issued, state_after, taken_key.
    destruct (Flink.op e) as [o|] eqn:Ho.
    + rewrite (process_json off e o) by done. simpl.
      rewrite orb_false_r.
      destruct (String.eqb_spec o "c") as [->|Hc]; simpl.
      { destruct (Flink.after e); simpl; [|by intros ?%elem_of_nil].
        by intros ->%list_elem_of_singleton. }
      destruct (String.eqb_spec o "r") as [->|Hr]; simpl.
      { destruct (Flink.after e); simpl; [|by intros ?%elem_of_nil].
        by intros ->%list_elem_of_singleton. }
      destruct (String.eqb_spec o "u") as [->|Hu]; simpl.
      { destruct (Flink.after e); simpl; [|by intros ?%elem_of_nil].
        by intros ->%list_elem_of_singleton. }
      destruct (String.eqb o "d"); [|by intros ?%elem_of_nil].
      destruct (Flink.before e); simpl; [|by intros ?%elem_of_nil].
      by intros ->%list_elem_of_singleton.
    + destruct e as [b a o ts]. simpl in Ho. subst o.
      by intros ?%elem_of_nil.
  - intros Hop Ha. unfold taken_key, Flink.coalesce_key. rewrite Hop, Ha. done.
  - intros Hop [k Hk]. unfold taken_key, Flink.coalesce_key. rewrite Hk.
    destruct (Flink.op e) as [o|]; simpl; [|done]. rewrite orb_false_r.
    destruct (String.eqb_spec o "d") as [->|]; done.
  - intros Hop Ha. unfold issued, state_after.
    destruct (Flink.op e) as [o|] eqn:Ho.
    + rewrite (process_json off e o) by done. rewrite Ha.
      destruct (String.eqb o "c" || String.eqb o "r"); [done|].
      destruct (String.eqb o "u"); [done|].
      destruct (String.eqb_spec o "d") as [->|]; done.
    + destruct e as [b a o ts]. simpl in Ho. by subst o.
Qed.

Lemma C6_key_of_the_mutation_witness :
  stmt_key (DeleteWhere (PInt 1)) = Flink.json_int (taken_key delete_with_after) ∧
  taken_key delete_ann = Flink.coalesce_key delete_ann ∧
  taken_key create_ann = Flink.coalesce_key create_ann.
Proof.
  destruct (C6_key_of_the_mutation delete_with_after 0%nat) as (_ & Hs & _).
  destruct (C6_key_of_the_mutation delete_ann 0%nat) as (_ & _ & Hd & _).
  destruct (C6_key_of_the_mutation create_ann 0%nat) as (_ & _ & _ & Hc & _).
  split; [|split].
  - apply Hs. apply list_elem_of_here.
  - apply Hd; reflexivity.
  - apply Hc; [discriminate|]. exists 7. reflexivity.
Defined.

End NarrowingFacts.

(** ** Further properties of [process_message] *)

Module ApplierFacts.
Import Consumer Plan PlanFacts Events ConsumerFacts LoopFacts.

(** A payload from which [get] reads something is a dict that binds it. *)
Lemma get_ret_dict (v : pyval) (k : string) (x : pyval) :
  get v k = ret x → x ≠ PNone →
  ∃ d, v = PDict d ∧ assoc k d = Some x.
Proof.
  destruct v as [| | | | |d]; simpl; try discriminate.
  intros [= Hx] Hne. exists d. split; [done|].
  destruct (assoc k d); simpl in Hx; by subst.
Qed.

Lemma get_dict_default (d : list (string * pyval)) (k : string) (x : pyval) :
  get (PDict d) k = ret x → default PNone (assoc k d) = x.
Proof. by intros [= ->]. Qed.

(** A message is handled by its value alone. *)
Lemma process_by_value {S} (m : message) (c : cursor S) (st : S) :
  process_message m c st = process_message (Message 0 (value m)) c st.
Proof. reflexivity. Qed.

(** A message with operation [o] whose value is an object, in the form of
    [process_dict]. *)
Lemma process_op {S} (m : message) (o : string) (c : cursor S) (st : S) :
  get (value m) "op" = ret (PStr o) →
  ∃ d, value m = PDict d ∧ assoc "op" d = Some (PStr o) ∧
       process_message m c st = process_message (Message 0 (PDict d)) c st.
Proof.
  intros Hop. destruct (get_ret_dict _ _ _ Hop) as (d & Hd & Ha); [done|].
  exists d. split; [done|]. split; [done|].
  rewrite process_by_value. by rewrite Hd.
Qed.

(** X1: a Read (snapshot) event is handled exactly as the Create event with
    the same [after]: same statement, same result, same exception. *)
Theorem create_and_read_are_handled_alike {S : Type}
    (c : cursor S) (st : S) (off1 off2 : nat) (d1 d2 : list (string * pyval)) :
  assoc "op" d1 = Some (PStr "c") →
  assoc "op" d2 = Some (PStr "r") →
  assoc "after" d1 = assoc "after" d2 →
  process_message (Message off1 (PDict d1)) c st
  = process_message (Message off2 (PDict d2)) c st.
Proof.
  intros H1 H2 Ha.
  rewrite (process_dict off1 d1 "c") by done.
  rewrite (process_dict off2 d2 "r") by done.
  simpl. by rewrite Ha.
Qed.

Lemma create_and_read_are_handled_alike_witness :
  process_message create_1 (orders_cursor plain) ∅
  = process_message
      (Message 5 (PDict [("after", projection 1 5 "A"); ("op", PStr "r")]))
      (orders_cursor plain) ∅.
Proof.
  apply (create_and_read_are_handled_alike (orders_cursor plain) ∅ 0%nat 5%nat
           [("op", PStr "c"); ("after", projection 1 5 "A")]
           [("after", projection 1 5 "A"); ("op", PStr "r")]); reflexivity.
Defined.

(** X2: a Create or Read whose [after] carries the three fields, on a server
    that accepts the statement, leaves the row of its key equal to the
    event's [user_id] and [name] whether or not the key had a row before:
    the table is the old one with that row inserted or replaced. *)
Theorem create_inserts_or_overwrites
    (srv : server) (m : message) (o : string) (a ko u n : pyval) (k : Z)
    (t : table) :
  o = "c" ∨ o = "r" →
  get (value m) "op" = ret (PStr o) →
  get (value m) "after" = ret a →
  subscript a "order_id" = ret ko →
  subscript a "user_id" = ret u →
  subscript a "name" = ret n →
  key_of srv ko = Some k →
  refuses srv (InsertOnConflict ko u n) t = None →
  process_message m (orders_cursor srv) t = inr (<[k := Row u n]> t).
Proof.
  intros Ho Hop Ha Hk Hu Hn Hkey Hacc.
  destruct (process_op m o (orders_cursor srv) t Hop) as (d & Hd & Hopd & ->).
  rewrite Hd in Ha. apply get_dict_default in Ha.
  rewrite (process_dict _ _ o) by done.
  assert (Hb : String.eqb o "c" || String.eqb o "r" = true)
    by (by destruct Ho as [-> | ->]).
  rewrite Hb. cbv zeta. rewrite Ha, (subscript_ret_truthy _ _ _ Hk).
  rewrite Hk, Hu, Hn. simpl. by rewrite Hacc, Hkey.
Qed.

Lemma create_inserts_or_overwrites_witness :
  process_message create_1 (orders_cursor plain)
    {[1 := Row (PInt 8) (PStr "Z")]}
  = inr (<[1 := Row (PInt 5) (PStr "A")]> {[1 := Row (PInt 8) (PStr "Z")]}).
Proof.
  apply (create_inserts_or_overwrites plain create_1 "c" (projection 1 5 "A")
           (PInt 1) (PInt 5) (PStr "A") 1); try reflexivity.
  left. reflexivity.
Defined.

(** X3: a Delete needs only [order_id] in its [before] projection; on a
    server that accepts the statement it returns with the row of that key
    removed and every other row in place, whether or not the row existed. *)
Theorem delete_removes_the_row
    (srv : server) (m : message) (b ko : pyval) (k : Z) (t : table) :
  get (value m) "op" = ret (PStr "d") →
  get (value m) "before" = ret b →
  subscript b "order_id" = ret ko →
  key_of srv ko = Some k →
  refuses srv (DeleteWhere ko) t = None →
  process_message m (orders_cursor srv) t = inr (delete k t).
Proof.
  intros Hop Hb Hk Hkey Hacc.
  destruct (process_op m "d" (orders_cursor srv) t Hop) as (d & Hd & Hopd & ->).
  rewrite Hd in Hb. apply get_dict_default in Hb.
  rewrite (process_dict _ _ "d") by done. simpl.
  rewrite Hb, (subscript_ret_truthy _ _ _ Hk), Hk. simpl.
  by rewrite Hacc, Hkey.
Qed.

Lemma delete_removes_the_row_witness :
  process_message delete_1 (orders_cursor plain) two_rows
  = inr (delete 1 two_rows).
Proof.
  apply (delete_removes_the_row plain delete_1 (PDict [("order_id", PInt 1)])
           (PInt 1) 1); reflexivity.
Defined.

(** X4: what [process_message] does is fixed by the message before the
    cursor is touched: for each message there is one plan (raise a given
    exception, do nothing, or execute one given statement) that it follows
    with every cursor and from every state. *)
Theorem statement_depends_on_the_message_only (m : message) :
  ∃ p : plan, ∀ (S : Type) (c : cursor S) (st : S),
    process_message m c st = follow p c st.
Proof. exists (plan_of m). intros S c st. apply process_message_plan. Qed.

(** The statement in a message's plan is the one of its operation. *)
Lemma executes_kind (m : message) (o : string) (s : stmt) :
  get (value m) "op" = ret (PStr o) →
  plan_of m = Executes s →
  match s with
  | InsertOnConflict _ _ _ => o = "c" ∨ o = "r"
  | UpdateWhere _ _ _ => o = "u"
  | DeleteWhere _ => o = "d"
  end.
Proof.
  intros Hop. unfold plan_of.
  destruct (process_op m o recorder [] Hop) as (d & Hd & Hopd & ->).
  rewrite (process_dict _ _ o) by done. cbv zeta.
  destruct (String.eqb_spec o "c") as [->|Hc]; simpl.
  { destruct (truthy _); [|done].
    destruct (subscript _ "order_id"); simpl; [done|].
    destruct (subscript _ "user_id"); simpl; [done|].
    destruct (subscript _ "name"); simpl; [done|].
    intros [= <-]. by left. }
  destruct (String.eqb_spec o "r") as [->|Hr]; simpl.
  { destruct (truthy _); [|done].
    destruct (subscript _ "order_id"); simpl; [done|].
    destruct (subscript _ "user_id"); simpl; [done|].
    destruct (subscript _ "name"); simpl; [done|].
    intros [= <-]. by right. }
  destruct (String.eqb_spec o "u") as [->|Hu]; simpl.
  { destruct (truthy _); [|done].
    destruct (subscript _ "user_id"); simpl; [done|].
    destruct (subscript _ "name"); simpl; [done|].
    destruct (subscript _ "order_id"); simpl; [done|].
    by intros [= <-]. }
  destruct (String.eqb_spec o "d") as [->|Hd']; simpl; [|done].
  destruct (truthy _); [|done].
  destruct (subscript _ "order_id"); simpl; [done|].
  by intros [= <-].
Qed.

(** The table a message leaves is the old one or the one its statement
    writes. *)
Lemma state_after_cases (srv : server) (m : message) (t : table) :
  state_after m (orders_cursor srv) t = t ∨
  ∃ s, plan_of m = Executes s ∧
       write srv s t = inr (state_after m (orders_cursor srv) t).
Proof.
  unfold state_after. rewrite process_message_plan.
  destruct (plan_of m) as [e| |s]; simpl; auto.
  destruct (refuses srv s t); simpl; auto.
  destruct (write srv s t) as [e|t'] eqn:Hw; simpl; auto.
  right. by exists s.
Qed.

(** X5: which keys the destination holds changes with the operation only
    in one direction: a Create or Read never removes a key, an Update
    neither adds nor removes one, a Delete never adds one. This holds on
    every server, whether the statement is accepted or refused. *)
Theorem keys_move_one_way_per_operation
    (srv : server) (m : message) (o : string) (t : table) :
  get (value m) "op" = ret (PStr o) →
  (o = "c" ∨ o = "r" → dom t ⊆ dom (state_after m (orders_cursor srv) t)) ∧
  (o = "u" → dom (state_after m (orders_cursor srv) t) = dom t) ∧
  (o = "d" → dom (state_after m (orders_cursor srv) t) ⊆ dom t).
Proof.
  intros Hop.
  destruct (state_after_cases srv m t) as [->|(s & Hplan & Hw)]; [done|].
  pose proof (executes_kind m o s Hop Hplan) as Hkind.
  set (t' := state_after m (orders_cursor srv) t) in *. clearbody t'.
  destruct s as [k u n|u n k|k]; simpl in Hw;
    destruct (key_of srv k) as [z|]; unfold ret, raise in Hw; simplify_eq/=.
  - split; [|split]; [intros _|intros ->; by destruct Hkind|
                      intros ->; by destruct Hkind].
    apply dom_insert_subseteq.
  - split; [|split]; [by intros [|]|intros _|done].
    apply dom_alter_L.
  - split; [|split]; [by intros [|]|done|done].
  - split; [|split]; [by intros [|]|done|intros _].
    rewrite dom_delete_L. intros x Hx. by apply elem_of_difference in Hx as [? _].
  - split; [|split]; [by intros [|]|done|done].
Qed.

Lemma keys_move_one_way_per_operation_witness :
  dom (state_after update_1 (orders_cursor plain) two_rows) = dom two_rows.
Proof.
  apply (keys_move_one_way_per_operation plain update_1 "u" two_rows);
    reflexivity.
Defined.

(** X6: handling one message changes the number of rows of the destination
    by at most one, whatever the message and the server. *)
Theorem row_count_moves_by_at_most_one
    (srv : server) (m : message) (t : table) :
  (size t ≤ size (state_after m (orders_cursor srv) t) + 1)%nat ∧
  (size (state_after m (orders_cursor srv) t) ≤ size t + 1)%nat.
Proof.
  destruct (state_after_cases srv m t) as [->|(s & Hplan & Hw)]; [lia|].
  set (t' := state_after m (orders_cursor srv) t) in *. clearbody t'.
  destruct s as [k u n|u n k|k]; simpl in Hw;
    destruct (key_of srv k) as [z|]; unfold ret, raise in Hw; simplify_eq/=;
    try lia.
  - rewrite map_size_insert. destruct (t !! z); simpl; lia.
  - rewrite <- !(size_dom (D := gset Z)), dom_alter_L. lia.
  - rewrite map_size_delete. destruct (t !! z); simpl; lia.
Qed.



End ApplierFacts.

(** ** Further properties of the consumption loop *)

Module ConsumptionFacts.
Import Consumer Plan PlanFacts Events ConsumerFacts LoopFacts.


(** Position and committed position over one turn. *)
Lemma iteration_offsets (tn : turn) (r : run) :
  (committed r ≤ position r)%nat →
  (committed (snd (iteration tn r)) ≤ position (snd (iteration tn r)))%nat ∧
  (position r ≤ position (snd (iteration tn r)) ≤ Datatypes.S (position r))%nat.
Proof.
  intros Hle. unfold iteration.
  destruct (commit_due tn); simpl;
    destruct (value_deserializer (fetched tn)); simpl;
    try destruct (bind _ _); simpl; lia.
Qed.

Lemma consume_offsets (turns : list turn) (r : run) :
  (committed r ≤ position r)%nat →
  (committed (snd (consume turns r)) ≤ position (snd (consume turns r)))%nat ∧
  (position (snd (consume turns r)) ≤ position r + length turns)%nat.
Proof.
  revert r. induction turns as [|tn turns IH]; intros r Hle; simpl; [lia|].
  destruct (iteration_offsets tn r Hle) as (H1 & H2).
  destruct (iteration tn r) as [[e|] r']; simpl in *; [lia|].
  destruct (IH r' H1). lia.
Qed.




(** X9: whatever the records and the faults, the position the consumer has
    committed is never ahead of the records handed to the loop, which are
    never more than the records fetched; and when an exception leaves the
    loop, closing the consumer commits the position reached, the record
    being handled included. *)
Theorem committed_position_never_ahead (turns : list turn) (t : table) :
  (committed (snd (main turns t)) ≤ position (snd (main turns t)))%nat ∧
  (position (snd (main turns t)) ≤ length turns)%nat ∧
  (fst (main turns t) ≠ Exhausted →
   committed (snd (main turns t)) = position (snd (main turns t))).
Proof.
  unfold main.
  destruct (consume_offsets turns (Run t [] 0%nat 0%nat)) as (H1 & H2);
    [simpl; lia|].
  destruct (consume turns _) as [[|e] r]; simpl in *.
  - repeat split; [lia|lia|done].
  - repeat split; lia.
Qed.



End ConsumptionFacts.

(** ** Properties of the start-up routines *)

Module StartupFacts.
Import Startup.

(** Below a bound, a decidable property holds first at some index or
    nowhere. *)
Lemma least_below (P : nat → Prop) (n : nat) :
  (∀ j, Decision (P j)) →
  (∃ i, (i < n)%nat ∧ P i ∧ ∀ j, (j < i)%nat → ¬ P j) ∨
  (∀ j, (j < n)%nat → ¬ P j).
Proof.
  intros Hdec. induction n as [|n IH]; [right; intros; lia|].
  destruct IH as [(i & Hi & HPi & Hleast)|Hno].
  - left. exists i. split; [lia|done].
  - destruct (decide (P n)) as [HP|HP].
    + left. exists n. split; [lia|]. split; [done|exact Hno].
    + right. intros j Hj. destruct (decide (j = n)) as [->|]; [done|].
      apply Hno. lia.
Qed.

Section ConnectLoop.
Context {E A : Type}.
Variable service : string.
Variable max_retries : nat.

Local Abbreviation loop connect := (connect_loop (E:=E) (A:=A) service connect max_retries).

Lemma connect_loop_first_success_lines (connect : nat → E + A)
    (errs : nat → E) (i : nat) :
  ∀ (fuel retry_count : nat) (c : console line) (conn : A),
    (retry_count + i < max_retries)%nat →
    (i < fuel)%nat →
    connect (retry_count + i)%nat = inr conn →
    (∀ j, (j < i)%nat →
          connect (retry_count + j)%nat = inl (errs (retry_count + j)%nat)) →
    loop connect fuel retry_count c
    = (Some conn,
       Console (lines c ++
                map (λ j, FailedToConnect service (Datatypes.S j) max_retries (errs j))
                    (seq retry_count i) ++
                [Connected service])
               (slept c + 5 * i)).
Proof.
  induction i as [|i IH]; intros fuel rc c conn Hlt Hfuel Hok Hfail;
    destruct fuel as [|fuel]; try lia; simpl.
  - rewrite (proj2 (Nat.ltb_lt _ _)) by lia.
    rewrite Nat.add_0_r in Hok. rewrite Hok.
    unfold print. by rewrite Nat.add_0_r.
  - rewrite (proj2 (Nat.ltb_lt _ _)) by lia.
    pose proof (Hfail 0%nat ltac:(lia)) as He.
    rewrite Nat.add_0_r in He. rewrite He.
    rewrite (IH fuel (Datatypes.S rc) _ conn).
    + unfold sleep, print. cbn [lines slept seq map].
      rewrite <- app_assoc. cbn [app]. do 2 f_equal. lia.
    + lia.
    + lia.
    + by replace (Datatypes.S rc + i)%nat with (rc + Datatypes.S i)%nat by lia.
    + intros j Hj.
      replace (Datatypes.S rc + j)%nat with (rc + Datatypes.S j)%nat by lia.
      apply Hfail. lia.
Qed.

Lemma connect_loop_all_fail (connect : nat → E + A) :
  ∀ (fuel retry_count : nat) (c : console line),
    (max_retries - retry_count ≤ fuel)%nat →
    (∀ j, (retry_count ≤ j < max_retries)%nat → ∃ e, connect j = inl e) →
    ∃ c', loop connect fuel retry_count c = (None, c') ∧
          slept c' = (slept c + 5 * (max_retries - retry_count))%nat.
Proof.
  induction fuel as [|fuel IH]; intros rc c Hfuel Hfail; simpl.
  - exists c. split; [done|]. lia.
  - destruct (Nat.ltb_spec rc max_retries) as [Hlt|Hge].
    + destruct (Hfail rc) as [e He]; [lia|]. rewrite He.
      destruct (IH (Datatypes.S rc)
                  (sleep 5 (print (FailedToConnect service (Datatypes.S rc) max_retries e) c)))
        as (c' & Hrun & Hs).
      * lia.
      * intros j Hj. apply Hfail. lia.
      * exists c'. split; [done|]. simpl in Hs. lia.
    + exists c. split; [done|]. lia.
Qed.

Lemma connect_loop_none (connect : nat → E + A) :
  ∀ (fuel retry_count : nat) (c c' : console line),
    (max_retries - retry_count ≤ fuel)%nat →
    loop connect fuel retry_count c = (None, c') →
    ∀ j, (retry_count ≤ j < max_retries)%nat → ∃ e, connect j = inl e.
Proof.
  induction fuel as [|fuel IH]; intros rc c c' Hfuel Hrun j Hj; [lia|].
  simpl in Hrun. rewrite (proj2 (Nat.ltb_lt _ _)) in Hrun by lia.
  destruct (connect rc) as [e|conn] eqn:He; [|done].
  destruct (decide (j = rc)) as [->|Hne]; [by exists e|].
  refine (IH _ _ _ _ Hrun j _); lia.
Qed.

Lemma connect_loop_ext (connect connect' : nat → E + A) :
  (∀ j, (j < max_retries)%nat → connect j = connect' j) →
  ∀ (fuel retry_count : nat) (c : console line),
    loop connect fuel retry_count c = loop connect' fuel retry_count c.
Proof.
  intros Hext. induction fuel as [|fuel IH]; intros rc c; simpl; [done|].
  destruct (Nat.ltb_spec rc max_retries) as [Hlt|Hge]; [|done].
  rewrite <- (Hext rc Hlt). destruct (connect rc); [|done]. apply IH.
Qed.

Lemma connect_loop_slept (connect : nat → E + A) :
  ∀ (fuel retry_count : nat) (c : console line),
    (slept c ≤ slept (snd (loop connect fuel retry_count c))
     ≤ slept c + 5 * (max_retries - retry_count))%nat.
Proof.
  induction fuel as [|fuel IH]; intros rc c; simpl; [lia|].
  destruct (Nat.ltb_spec rc max_retries) as [Hlt|Hge]; simpl; [|lia].
  destruct (connect rc) as [e|conn]; simpl; [|lia].
  specialize (IH (Datatypes.S rc)
                (sleep 5 (print (FailedToConnect service (Datatypes.S rc) max_retries e) c))).
  simpl in IH. lia.
Qed.

End ConnectLoop.

(** *** [get_db_connection] and the start of [main] (kafka-consumer.py) *)

(** X12: [get_db_connection] returns the connection of the first call that
    succeeds among its ten: with [i] failed calls before it, it has printed
    the [i] failure lines, numbered from 1 and each with the exception of
    its call, then the connected line and nothing else, and has slept
    [5 * i] seconds. *)
Theorem get_db_connection_returns_first_success {E Conn : Type}
    (connect : nat → E + Conn) (errs : nat → E) (i : nat) (conn : Conn)
    (c : console line) :
  (i < 10)%nat →
  connect i = inr conn →
  (∀ j, (j < i)%nat → connect j = inl (errs j)) →
  get_db_connection connect c
  = (inr conn,
     Console (lines c ++
              map (λ j, FailedToConnect "PostgreSQL" (Datatypes.S j) 10 (errs j))
                  (seq 0 i) ++
              [Connected "PostgreSQL"])
             (slept c + 5 * i)).
Proof.
  intros Hi Hok Hfail. unfold get_db_connection.
  by rewrite (connect_loop_first_success_lines "PostgreSQL" 10 connect errs i
                10 0 c conn) by (try done; lia).
Qed.

Lemma get_db_connection_returns_first_success_witness :
  get_db_connection (λ n, if (n <? 2)%nat then inl (n * 3)%nat else inr (n * 7)%nat)
    (Console [WaitingForServices] 20%nat)
  = (inr 14%nat,
     Console [WaitingForServices;
              FailedToConnect "PostgreSQL" 1 10 0%nat;
              FailedToConnect "PostgreSQL" 2 10 3%nat;
              Connected "PostgreSQL"] 30%nat).
Proof.
  apply (get_db_connection_returns_first_success
           (λ n, if (n <? 2)%nat then inl (n * 3)%nat else inr (n * 7)%nat)
           (λ n, (n * 3)%nat) 2 14%nat (Console [WaitingForServices] 20%nat)).
  - lia.
  - reflexivity.
  - intros j Hj. destruct j as [|[|j]]; [reflexivity|reflexivity|lia].
Defined.

(** Ten failures in a row make [get_db_connection] give up. *)
Lemma get_db_connection_all_fail {E Conn : Type}
    (connect : nat → E + Conn) (c : console line) :
  (∀ j, (j < 10)%nat → ∃ e, connect j = inl e) →
  fst (get_db_connection connect c)
  = inl "Could not connect to PostgreSQL after multiple attempts" ∧
  slept (snd (get_db_connection connect c)) = (slept c + 50)%nat.
Proof.
  intros Hall. unfold get_db_connection.
  destruct (connect_loop_all_fail "PostgreSQL" 10 connect 10 0 c)
    as (c' & Hrun & Hs); [lia|intros j Hj; apply Hall; lia|].
  rewrite Hrun. simpl. split; [done|]. lia.
Qed.

(** X13: [get_db_connection] raises exactly when its first ten calls all
    fail; it has then slept fifty seconds, five after each failure, the
    last one included. *)
Theorem get_db_connection_gives_up_after_ten_failures {E Conn : Type}
    (connect : nat → E + Conn) (c : console line) :
  ((∃ msg, fst (get_db_connection connect c) = inl msg) ↔
   (∀ j, (j < 10)%nat → ∃ e, connect j = inl e)) ∧
  ((∀ j, (j < 10)%nat → ∃ e, connect j = inl e) →
   fst (get_db_connection connect c)
   = inl "Could not connect to PostgreSQL after multiple attempts" ∧
   slept (snd (get_db_connection connect c)) = (slept c + 50)%nat).
Proof.
  pose proof (get_db_connection_all_fail connect c) as Hfail.
  split; [|done]. split.
  - intros [msg Hmsg] j Hj. unfold get_db_connection in Hmsg.
    destruct (connect_loop "PostgreSQL" connect 10 10 0 c) as [[conn|] c'] eqn:Hrun;
      [done|].
    apply (connect_loop_none "PostgreSQL" 10 connect 10 0 c c'); [lia|done|lia].
  - intros Hall. eexists. apply (Hfail Hall).
Qed.

Lemma get_db_connection_gives_up_after_ten_failures_witness :
  fst (get_db_connection (Conn:=unit) (λ n, inl n) (Console [] 20%nat))
  = inl "Could not connect to PostgreSQL after multiple attempts" ∧
  slept (snd (get_db_connection (Conn:=unit) (λ n, inl n) (Console [] 20%nat)))
  = (20 + 50)%nat.
Proof.
  apply (proj2 (get_db_connection_gives_up_after_ten_failures (Conn:=unit)
                  (λ n, inl n) (Console [] 20%nat))).
  intros j _. exists j. reflexivity.
Defined.

(** X14: [get_db_connection] makes at most ten calls: what an eleventh or
    later call would answer has no influence on its result or output. *)
Theorem get_db_connection_makes_at_most_ten_calls {E Conn : Type}
    (connect connect' : nat → E + Conn) (c : console line) :
  (∀ j, (j < 10)%nat → connect j = connect' j) →
  get_db_connection connect c = get_db_connection connect' c.
Proof.
  intros Hext. unfold get_db_connection.
  by rewrite (connect_loop_ext "PostgreSQL" 10 connect connect' Hext).
Qed.

Lemma get_db_connection_makes_at_most_ten_calls_witness :
  get_db_connection (Conn:=nat) (λ n, inl n) (Console [] 0%nat)
  = get_db_connection (λ n, if (n <? 10)%nat then inl n else inr n)
      (Console [] 0%nat).
Proof.
  apply get_db_connection_makes_at_most_ten_calls.
  intros j Hj. apply Nat.ltb_lt in Hj. by rewrite Hj.
Defined.

(** X15: before the consumption loop, [main] sleeps at least 20 seconds and
    at most 120: the 20 of [wait_for_services] and at most 50 in each of its
    two connection loops. *)
Theorem main_startup_sleeps_between_20_and_120 {E Conn Cons : Type}
    (connect : nat → E + Conn) (subscribe : nat → E + Cons) :
  (20 ≤ slept (snd (main_startup connect subscribe)) ≤ 120)%nat.
Proof.
  unfold main_startup, get_db_connection.
  pose proof (connect_loop_slept "PostgreSQL" 10 connect 10 0
                (wait_for_services (Console [] 0%nat))) as H1.
  destruct (connect_loop "PostgreSQL" connect 10 10 0 _) as [[conn|] c1];
    simpl in H1; cbn [fst snd]; [|lia].
  pose proof (connect_loop_slept "Kafka" 10 subscribe 10 0 c1) as H2.
  destruct (connect_loop "Kafka" subscribe 10 10 0 c1) as [[consumer|] c2];
    simpl in H2; cbn [fst snd print slept]; lia.
Qed.

(** X16: when the ten calls to PostgreSQL all fail, [main] ends with that
    error and Kafka is never contacted: the outcome and the output are the
    same whatever a subscription would have answered. *)
Theorem main_never_subscribes_without_database {E Conn Cons : Type}
    (connect : nat → E + Conn) (subscribe subscribe' : nat → E + Cons) :
  (∀ j, (j < 10)%nat → ∃ e, connect j = inl e) →
  fst (main_startup connect subscribe)
  = inl "Could not connect to PostgreSQL after multiple attempts" ∧
  main_startup connect subscribe = main_startup connect subscribe'.
Proof.
  intros Hall. unfold main_startup.
  destruct (get_db_connection_all_fail connect
              (wait_for_services (Console [] 0%nat)) Hall) as (Hmsg & _).
  destruct (get_db_connection connect _) as [[msg|conn] c1];
    cbn [fst] in Hmsg; [|done].
  injection Hmsg as ->. done.
Qed.

Lemma main_never_subscribes_without_database_witness :
  fst (main_startup (Conn:=unit) (Cons:=nat) (λ n, inl n) (λ n, inr n))
  = inl "Could not connect to PostgreSQL after multiple attempts" ∧
  main_startup (Conn:=unit) (Cons:=nat) (λ n, inl n) (λ n, inr n)
  = main_startup (Conn:=unit) (Cons:=nat) (λ n, inl n) (λ n, inl n).
Proof.
  apply main_never_subscribes_without_database.
  intros j _. exists j. reflexivity.
Defined.

(** *** [wait_for_services] of flink-init.py *)

Section OverviewLoop.
Context {E : Type}.
Variable overview : nat → E + Z.
Variable max_retries : nat.

Local Abbreviation loop := (overview_loop overview max_retries).

Lemma answers_200_dec (j : nat) : Decision (overview j = inr 200).
Proof.
  destruct (overview j) as [e|s]; [right; discriminate|].
  destruct (decide (s = 200)) as [->|Hne]; [by left|right; congruence].
Defined.

Lemma overview_loop_ready (i : nat) :
  ∀ (fuel retry_count : nat) (c : console (flink_line (E:=E))),
    (retry_count + i < max_retries)%nat →
    (i < fuel)%nat →
    overview (retry_count + i)%nat = inr 200 →
    (∀ j, (j < i)%nat → overview (retry_count + j)%nat ≠ inr 200) →
    ∃ c', loop fuel retry_count c = ((retry_count + i)%nat, c') ∧
          slept c' = (slept c + 5 * i)%nat ∧
          FlinkReady ∈ lines c' ∧
          (NotResponding ∈ lines c' → NotResponding ∈ lines c).
Proof.
  induction i as [|i IH]; intros fuel rc c Hlt Hfuel Hok Hnot;
    destruct fuel as [|fuel]; try lia; simpl.
  - rewrite (proj2 (Nat.ltb_lt _ _)) by lia.
    rewrite Nat.add_0_r in *. rewrite Hok. simpl.
    eexists. split; [done|]. simpl. split; [lia|]. split.
    + apply elem_of_app. right. apply list_elem_of_here.
    + intros [H|H%list_elem_of_singleton]%elem_of_app; done.
  - rewrite (proj2 (Nat.ltb_lt _ _)) by lia.
    assert (Hstep : ∀ c0, (NotResponding ∈ lines c0 → NotResponding ∈ lines c) →
      ∃ c', loop fuel (Datatypes.S rc)
              (sleep 5 (print (WaitingForJobManager (Datatypes.S rc) max_retries) c0))
            = ((rc + Datatypes.S i)%nat, c') ∧
            slept c' = (slept c0 + 5 * Datatypes.S i)%nat ∧
            FlinkReady ∈ lines c' ∧
            (NotResponding ∈ lines c' → NotResponding ∈ lines c)).
    { intros c0 Hc0.
      destruct (IH fuel (Datatypes.S rc)
                  (sleep 5 (print (WaitingForJobManager (Datatypes.S rc) max_retries) c0)))
        as (c' & Hrun & Hs & Hr & Hw).
      - lia.
      - lia.
      - by replace (Datatypes.S rc + i)%nat with (rc + Datatypes.S i)%nat by lia.
      - intros j Hj.
        replace (Datatypes.S rc + j)%nat with (rc + Datatypes.S j)%nat by lia.
        apply Hnot. lia.
      - exists c'. split.
        { rewrite Hrun. f_equal. lia. }
        split; [simpl in Hs; lia|]. split; [done|].
        intros Hin. apply Hc0. apply Hw in Hin. simpl in Hin.
        apply elem_of_app in Hin as [Hin|Hin%list_elem_of_singleton]; done. }
    pose proof (Hnot 0%nat ltac:(lia)) as H0. rewrite Nat.add_0_r in H0.
    destruct (overview rc) as [e|s].
    + destruct (Hstep (print (ErrorConnecting e) c)) as (c' & Hrun & Hs & Hr & Hw).
      { simpl. intros [Hin|Hin%list_elem_of_singleton]%elem_of_app; done. }
      exists c'. split; [done|]. split; [simpl in Hs; lia|done].
    + destruct (Z.eqb_spec s 200) as [->|Hne]; [done|].
      apply Hstep. done.
Qed.

Lemma overview_loop_never :
  ∀ (fuel retry_count : nat) (c : console (flink_line (E:=E))),
    (max_retries - retry_count ≤ fuel)%nat →
    (retry_count ≤ max_retries)%nat →
    (∀ j, (retry_count ≤ j < max_retries)%nat → overview j ≠ inr 200) →
    ∃ c', loop fuel retry_count c = (max_retries, c') ∧
          slept c' = (slept c + 5 * (max_retries - retry_count))%nat ∧
          (FlinkReady ∈ lines c' → FlinkReady ∈ lines c).
Proof.
  induction fuel as [|fuel IH]; intros rc c Hfuel Hle Hnot; simpl.
  - exists c. split; [f_equal; lia|]. split; [lia|done].
  - destruct (Nat.ltb_spec rc max_retries) as [Hlt|Hge].
    + assert (Hstep : ∀ c0, (FlinkReady ∈ lines c0 → FlinkReady ∈ lines c) →
        ∃ c', loop fuel (Datatypes.S rc)
                (sleep 5 (print (WaitingForJobManager (Datatypes.S rc) max_retries) c0))
              = (max_retries, c') ∧
              slept c' = (slept c0 + 5 * (max_retries - rc))%nat ∧
              (FlinkReady ∈ lines c' → FlinkReady ∈ lines c)).
      { intros c0 Hc0.
        destruct (IH (Datatypes.S rc)
                    (sleep 5 (print (WaitingForJobManager (Datatypes.S rc) max_retries) c0)))
          as (c' & Hrun & Hs & Hr); [lia|lia|intros j Hj; apply Hnot; lia|].
        exists c'. split; [done|]. split; [simpl in Hs; lia|].
        intros Hin. apply Hc0. apply Hr in Hin. simpl in Hin.
        apply elem_of_app in Hin as [Hin|Hin%list_elem_of_singleton]; done. }
      pose proof (Hnot rc ltac:(lia)) as H0.
      destruct (overview rc) as [e|s].
      * destruct (Hstep (print (ErrorConnecting e) c)) as (c' & Hrun & Hs & Hr).
        { simpl. intros [Hin|Hin%list_elem_of_singleton]%elem_of_app; done. }
        exists c'. split; [done|]. split; [simpl in Hs; lia|done].
      * destruct (Z.eqb_spec s 200) as [->|Hne]; [done|].
        apply Hstep. done.
    + exists c. split; [f_equal; lia|]. split; [lia|done].
Qed.

Lemma overview_loop_ext (overview' : nat → E + Z) :
  (∀ j, (j < max_retries)%nat → overview j = overview' j) →
  ∀ (fuel retry_count : nat) (c : console (flink_line (E:=E))),
    loop fuel retry_count c
    = overview_loop overview' max_retries fuel retry_count c.
Proof.
  intros Hext. induction fuel as [|fuel IH]; intros rc c; simpl; [done|].
  destruct (Nat.ltb_spec rc max_retries) as [Hlt|Hge]; [|done].
  rewrite <- (Hext rc Hlt).
  destruct (overview rc) as [e|s]; [apply IH|].
  destruct (s =? 200); [done|apply IH].
Qed.

End OverviewLoop.

(** The two ways [flink_wait_for_services] ends. *)
Lemma flink_wait_ready {E : Type} (overview : nat → E + Z) (i : nat)
    (c : console (flink_line (E:=E))) :
  (i < 30)%nat →
  overview i = inr 200 →
  (∀ j, (j < i)%nat → overview j ≠ inr 200) →
  slept (flink_wait_for_services overview c) = (slept c + 40 + 5 * i)%nat ∧
  FlinkReady ∈ lines (flink_wait_for_services overview c) ∧
  (NotResponding ∈ lines (flink_wait_for_services overview c) →
   NotResponding ∈ lines c).
Proof.
  intros Hi Hok Hnot. unfold flink_wait_for_services.
  destruct (overview_loop_ready overview 30 i 30 0
              (sleep 30 (print WaitingForFlinkServices c)))
    as (c' & Hrun & Hs & Hr & Hw); try done; try lia.
  rewrite Hrun. clear Hrun. simpl Nat.add.
  rewrite (proj2 (Nat.leb_gt 30 i)) by lia. simpl in *.
  split; [lia|]. split; [done|].
  intros Hin. apply Hw in Hin.
  apply elem_of_app in Hin as [Hin|Hin%list_elem_of_singleton]; done.
Qed.

Lemma flink_wait_never {E : Type} (overview : nat → E + Z)
    (c : console (flink_line (E:=E))) :
  (∀ j, (j < 30)%nat → overview j ≠ inr 200) →
  slept (flink_wait_for_services overview c) = (slept c + 190)%nat ∧
  NotResponding ∈ lines (flink_wait_for_services overview c) ∧
  (FlinkReady ∈ lines (flink_wait_for_services overview c) →
   FlinkReady ∈ lines c).
Proof.
  intros Hnot. unfold flink_wait_for_services.
  destruct (overview_loop_never overview 30 30 0
              (sleep 30 (print WaitingForFlinkServices c)))
    as (c' & Hrun & Hs & Hr); [lia|lia|intros j Hj; apply Hnot; lia|].
  rewrite Hrun. clear Hrun. simpl in *.
  split; [lia|]. split.
  - apply elem_of_app. right. apply list_elem_of_here.
  - intros [Hin|Hin%list_elem_of_singleton]%elem_of_app; [|done].
    apply Hr in Hin.
    apply elem_of_app in Hin as [Hin|Hin%list_elem_of_singleton]; done.
Qed.

(** X17: [wait_for_services] of flink-init.py prints that the JobManager is
    ready exactly when one of its first thirty requests is answered with
    status 200, and prints its warning exactly when none is: never both,
    never neither. It returns in either case. *)
Theorem flink_wait_reports_ready_or_warns {E : Type}
    (overview : nat → E + Z) (c : console (flink_line (E:=E))) :
  FlinkReady ∉ lines c →
  NotResponding ∉ lines c →
  (FlinkReady ∈ lines (flink_wait_for_services overview c) ↔
   ∃ j, (j < 30)%nat ∧ overview j = inr 200) ∧
  (NotResponding ∈ lines (flink_wait_for_services overview c) ↔
   ∀ j, (j < 30)%nat → overview j ≠ inr 200).
Proof.
  intros Hr0 Hw0.
  destruct (least_below (λ j, overview j = inr 200) 30 (answers_200_dec overview))
    as [(i & Hi & Hok & Hleast)|Hnone].
  - destruct (flink_wait_ready overview i c Hi Hok Hleast) as (_ & Hr & Hw).
    split; split.
    + intros _. by exists i.
    + done.
    + intros Hin. by apply Hw in Hin.
    + intros Hall. by destruct (Hall i Hi).
  - destruct (flink_wait_never overview c Hnone) as (_ & Hw & Hr).
    split; split.
    + intros Hin. by apply Hr in Hin.
    + intros (j & Hj & Hok). by destruct (Hnone j Hj).
    + done.
    + done.
Qed.

Lemma flink_wait_reports_ready_or_warns_witness :
  (FlinkReady ∈ lines (flink_wait_for_services
                         (λ n, if (n <? 3)%nat then inl n else inr 200)
                         (Console [] 0%nat)) ↔
   ∃ j, (j < 30)%nat ∧ (if (j <? 3)%nat then inl j else inr 200) = inr 200) ∧
  (NotResponding ∈ lines (flink_wait_for_services
                            (λ n, if (n <? 3)%nat then inl n else inr 200)
                            (Console [] 0%nat)) ↔
   ∀ j, (j < 30)%nat → (if (j <? 3)%nat then inl j else inr 200) ≠ inr 200).
Proof.
  apply (flink_wait_reports_ready_or_warns
           (λ n, if (n <? 3)%nat then inl n else inr 200) (Console [] 0%nat));
    simpl; apply not_elem_of_nil.
Defined.

(** X18: [wait_for_services] of flink-init.py sleeps 40 seconds plus 5 for
    each request not answered with status 200: [40 + 5 * i] when the
    [i]-th request (from 0) is the first answered with 200, and 190 when
    none of the thirty is. A status other than 200 counts as a failed
    attempt like an exception. *)
Theorem flink_wait_sleeps_40_plus_5_per_retry {E : Type}
    (overview : nat → E + Z) (c : console (flink_line (E:=E))) :
  (∀ i, (i < 30)%nat →
        overview i = inr 200 →
        (∀ j, (j < i)%nat → overview j ≠ inr 200) →
        slept (flink_wait_for_services overview c) = (slept c + 40 + 5 * i)%nat) ∧
  ((∀ j, (j < 30)%nat → overview j ≠ inr 200) →
   slept (flink_wait_for_services overview c) = (slept c + 190)%nat) ∧
  (slept c + 40 ≤ slept (flink_wait_for_services overview c) ≤ slept c + 190)%nat.
Proof.
  split; [|split].
  - intros i Hi Hok Hleast. by apply flink_wait_ready.
  - intros Hnone. by apply flink_wait_never.
  - destruct (least_below (λ j, overview j = inr 200) 30 (answers_200_dec overview))
      as [(i & Hi & Hok & Hleast)|Hnone].
    + destruct (flink_wait_ready overview i c Hi Hok Hleast) as (-> & _). lia.
    + destruct (flink_wait_never overview c Hnone) as (-> & _). lia.
Qed.

Lemma flink_wait_sleeps_40_plus_5_per_retry_witness :
  slept (flink_wait_for_services (E:=unit)
           (λ n, if (n <? 3)%nat then inr 503 else inr 200) (Console [] 0%nat))
  = (0 + 40 + 5 * 3)%nat.
Proof.
  apply (proj1 (flink_wait_sleeps_40_plus_5_per_retry (E:=unit)
                  (λ n, if (n <? 3)%nat then inr 503 else inr 200)
                  (Console [] 0%nat)) 3%nat).
  - lia.
  - reflexivity.
  - intros j Hj. destruct j as [|[|[|j]]]; try discriminate. lia.
Defined.

(** X19: [wait_for_services] of flink-init.py makes at most thirty requests:
    what a later request would be answered has no influence on its
    output. *)
Theorem flink_wait_makes_at_most_thirty_requests {E : Type}
    (overview overview' : nat → E + Z) (c : console (flink_line (E:=E))) :
  (∀ j, (j < 30)%nat → overview j = overview' j) →
  flink_wait_for_services overview c = flink_wait_for_services overview' c.
Proof.
  intros Hext. unfold flink_wait_for_services.
  by rewrite (overview_loop_ext overview 30 overview' Hext).
Qed.

Lemma flink_wait_makes_at_most_thirty_requests_witness :
  flink_wait_for_services (E:=unit) (λ n, inr 503) (Console [] 0%nat)
  = flink_wait_for_services (λ n, if (n <? 30)%nat then inr 503 else inr 200)
      (Console [] 0%nat).
Proof.
  apply flink_wait_makes_at_most_thirty_requests.
  intros j Hj. apply Nat.ltb_lt in Hj. by rewrite Hj.
Defined.

End StartupFacts.

(** ** Further properties of the Flink job *)

Module FlinkJobFacts.
Import Flink Events FlinkFacts.

(** X20: the Flink job is idempotent on every event: an event delivered
    twice in a row leaves [orders_flink] as one delivery does. *)
Theorem job_twice_is_job_once (e : kafka_orders) (t : gmap Z (option Z)) :
  job e (job e t) = job e t.
Proof.
  unfold job. destruct (insert_select e) as [r|]; [|done].
  unfold sink_write. destruct (sink_order_id r) as [k|]; [|done].
  apply insert_insert_eq.
Qed.

(** X21: the Flink job writes at most the row keyed by
    COALESCE(after.order_id, before.order_id): every other row of
    [orders_flink] is left as it was. *)
Theorem job_leaves_other_keys (e : kafka_orders) (t : gmap Z (option Z)) (k : Z) :
  coalesce_key e ≠ Some k →
  job e t !! k = t !! k.
Proof.
  intros Hne. unfold job, insert_select.
  destruct (op_in (op e) _); [|done]. unfold sink_write. simpl.
  fold (coalesce_key e). destruct (coalesce_key e) as [k'|]; [|done].
  apply lookup_insert_ne. congruence.
Qed.

Lemma job_leaves_other_keys_witness :
  job create_ann {[1 := Some 5]} !! 1 = ({[1 := Some 5]} : gmap Z (option Z)) !! 1.
Proof. apply job_leaves_other_keys. discriminate. Defined.

(** X22: COALESCE falls back field by field. For an Update whose [after]
    has a NULL [user_id] while [before] has one, the Flink job writes the
    old [user_id] under the new key, whereas the consumer binds NULL: an
    update that clears [user_id] at the source is not seen in
    [orders_flink]. *)
Theorem flink_keeps_old_user_id_when_cleared
    (e : kafka_orders) (a b : order_row) (k u : Z) (off : nat)
    (t : gmap Z (option Z)) :
  op e = Some "u" →
  after e = Some a →
  order_id a = Some k →
  user_id a = None →
  before e = Some b →
  user_id b = Some u →
  job e t !! k = Some (Some u) ∧
  Consumer.issued (Consumer.Message off (json e))
  = [Consumer.UpdateWhere PNone (json_str (name a)) (PInt k)].
Proof.
  intros Hop Ha Hk Hu Hb Hbu. split.
  - unfold job, insert_select. rewrite Hop, Ha, Hb. simpl.
    rewrite Hk, Hu, Hbu. simpl. apply lookup_insert_eq.
  - unfold Consumer.issued, Consumer.state_after.
    rewrite (NarrowingFacts.process_json off e "u") by done.
    simpl. rewrite Ha, Hk, Hu. reflexivity.
Qed.

Lemma flink_keeps_old_user_id_when_cleared_witness :
  job update_to_null ∅ !! 7 = Some (Some 3) ∧
  Consumer.issued (Consumer.Message 0 (json update_to_null))
  = [Consumer.UpdateWhere PNone (json_str (Some "Ann")) (PInt 7)].
Proof.
  apply (flink_keeps_old_user_id_when_cleared update_to_null
           (ROW (Some 7) None (Some "Ann")) (ROW (Some 7) (Some 3) (Some "Ann"))
           7 3 0%nat ∅); reflexivity.
Defined.

(** X23: a Create, Read or Update that arrives without [after] but with
    [before] is still written by the Flink job, from [before]: the row of
    the old key is set to the old [user_id]. *)
Theorem flink_writes_from_before_without_after
    (e : kafka_orders) (b : order_row) (k : Z) (t : gmap Z (option Z)) :
  op e = Some "c" ∨ op e = Some "r" ∨ op e = Some "u" →
  after e = None →
  before e = Some b →
  order_id b = Some k →
  job e t = <[k := user_id b]> t.
Proof.
  intros Hop Ha Hb Hk. unfold job, insert_select.
  rewrite (proj2 (op_in_cru (op e)) Hop), Ha, Hb. simpl.
  unfold sink_write. simpl. by rewrite Hk.
Qed.

Lemma flink_writes_from_before_without_after_witness :
  job (KafkaOrders (Some (ROW (Some 7) (Some 3) (Some "Ann"))) None (Some "u") None) ∅
  = <[7 := Some 3]> ∅.
Proof.
  apply (flink_writes_from_before_without_after
           (KafkaOrders (Some (ROW (Some 7) (Some 3) (Some "Ann"))) None (Some "u") None)
           (ROW (Some 7) (Some 3) (Some "Ann")) 7 ∅); try reflexivity.
  right. right. reflexivity.
Defined.



End FlinkJobFacts.

(** ** Batches of messages *)

Module BatchFacts.
Import Consumer Plan PlanFacts Events ConsumerFacts.

Lemma act_after (a2 a1 : key_action) (o : option row) :
  act (after_action a2 a1) o = act a2 (act a1 o).
Proof. destruct a2, a1, o; reflexivity. Qed.

Lemma act_twice (a : key_action) (o : option row) :
  act a (act a o) = act a o.
Proof. destruct a, o; reflexivity. Qed.

(** On a server that accepts every statement, a message acts on each row by
    its action. *)
Lemma state_after_action (srv : server) (m : message) (t : table) (k : Z) :
  (∀ s t', refuses srv s t' = None) →
  state_after m (orders_cursor srv) t !! k = act (action srv m k) (t !! k).
Proof.
  intros Hacc. unfold state_after, action. rewrite process_message_plan.
  destruct (plan_of m) as [e| |s]; simpl; try done.
  rewrite Hacc. unfold stmt_action.
  destruct s as [ko u n|u n ko|ko]; simpl;
    destruct (key_of srv ko) as [z|]; simpl; try done;
    destruct (decide (z = k)) as [->|Hne]; simpl.
  - apply lookup_insert_eq.
  - by apply lookup_insert_ne.
  - apply lookup_alter_eq.
  - by apply lookup_alter_ne.
  - apply lookup_delete_eq.
  - by apply lookup_delete_ne.
Qed.

Lemma apply_all_action (srv : server) (ms : list message) (t : table) (k : Z) :
  (∀ s t', refuses srv s t' = None) →
  apply_all srv ms t !! k = act (batch_action srv ms k) (t !! k).
Proof.
  intros Hacc. revert t. induction ms as [|m ms IH]; intros t; [done|].
  simpl. rewrite act_after. unfold apply_all in *. simpl.
  by rewrite IH, state_after_action.
Qed.

(** X25: on a server that accepts every statement, delivering a whole batch
    of messages a second time, in the same order, leaves the destination as
    the first delivery left it, whatever the messages are. *)
Theorem redelivered_batch_changes_nothing
    (srv : server) (ms : list message) (t : table) :
  (∀ s t', refuses srv s t' = None) →
  apply_all srv (ms ++ ms) t = apply_all srv ms t.
Proof.
  intros Hacc. unfold apply_all at 1. rewrite foldl_app.
  fold (apply_all srv ms t).
  fold (apply_all srv ms (apply_all srv ms t)).
  apply map_eq. intros k.
  rewrite !(apply_all_action srv ms _ k Hacc). apply act_twice.
Qed.

Lemma redelivered_batch_changes_nothing_witness :
  apply_all plain ([update_1; create_1; create_2; delete_1] ++
                   [update_1; create_1; create_2; delete_1]) two_rows
  = apply_all plain [update_1; create_1; create_2; delete_1] two_rows.
Proof.
  apply redelivered_batch_changes_nothing. reflexivity.
Defined.

(** X26: on a server that accepts every statement, two messages whose
    statements bear different keys can be handled in either order: the
    destination ends the same. *)
Theorem messages_on_different_keys_commute
    (srv : server) (m1 m2 : message) (t : table) :
  (∀ s t', refuses srv s t' = None) →
  (∀ s1 s2, s1 ∈ issued m1 → s2 ∈ issued m2 →
            key_of srv (stmt_key s1) ≠ key_of srv (stmt_key s2)) →
  apply_all srv [m1; m2] t = apply_all srv [m2; m1] t.
Proof.
  intros Hacc Hkeys. apply map_eq. intros k.
  rewrite !(apply_all_action srv _ _ k Hacc). simpl.
  rewrite !act_after. simpl.
  rewrite !issued_plan in Hkeys. unfold action, stmt_action.
  destruct (plan_of m1) as [e1| |s1]; try done;
    destruct (plan_of m2) as [e2| |s2]; try done.
  specialize (Hkeys s1 s2 (list_elem_of_here _ _) (list_elem_of_here _ _)).
  destruct (key_of srv (stmt_key s1)) as [z1|]; [|done].
  destruct (key_of srv (stmt_key s2)) as [z2|]; [|by destruct (decide _)].
  destruct (decide (z1 = k)) as [->|H1]; [|done].
  destruct (decide (z2 = k)) as [->|H2]; [done|].
  done.
Qed.

Lemma messages_on_different_keys_commute_witness :
  apply_all plain [update_1; create_2] two_rows
  = apply_all plain [create_2; update_1] two_rows.
Proof.
  apply messages_on_different_keys_commute; [reflexivity|].
  intros s1 s2 H1 H2.
  apply list_elem_of_singleton in H1. apply list_elem_of_singleton in H2.
  subst. discriminate.
Defined.

End BatchFacts.
